(** * Custom Dashboard panel: a model of [plugins/custom-dashboard/__init__.py]

    The panel keeps a collection of chart widgets in host-managed panel
    state, turns each widget into a chart payload through the host's
    aggregation calls, and wires the add / edit / remove / view-change
    events to that collection.

    The development is a shallow embedding: Python values are terms of
    [pyval], dictionaries with string keys are [gmap string _], exceptions
    are the [Raise] branch of [result], and the mutable [DashboardState]
    object is threaded through a small state-and-exception monad. *)

From Stdlib Require Import ZArith PrimFloat Uint63.
From stdpp Require Import gmap strings list fin_maps pretty.

#[local] Set Warnings "-register-all".
#[local] Open Scope string_scope.
#[local] Open Scope Z_scope.

(** ** Python values *)

(** The JSON-like values that travel through operator parameters and panel
    state.  Python [float] is IEEE binary64, the kernel's primitive float. *)
Inductive pyval : Type :=
| VNone
| VBool (b : bool)
| VInt (z : Z)
| VFloat (f : float)
| VStr (s : string)
| VList (l : list pyval)
| VDict (d : gmap string pyval).

(** Python truthiness ([if v:], [not v], [a and b]). *)
Definition truthy (v : pyval) : bool :=
  match v with
  | VNone => false
  | VBool b => b
  | VInt z => negb (z =? 0)
  | VFloat f => negb (PrimFloat.eqb f 0%float)
  | VStr s => negb (String.eqb s "")
  | VList l => match l with [] => false | _ :: _ => true end
  | VDict d => match size d with O => false | S _ => true end
  end.

(** [v == s] for a string literal [s]. *)
Definition py_eq_str (v : pyval) (s : string) : bool :=
  match v with
  | VStr t => String.eqb t s
  | _ => false
  end.

(** [v is None]. *)
Definition is_None (v : pyval) : bool :=
  match v with
  | VNone => true
  | _ => false
  end.

(** ** Exceptions *)

(** [NonException] stands for a [BaseException] that is not an [Exception]
    ([SystemExit], [KeyboardInterrupt]): [except Exception] lets it pass. *)
Inductive exn : Type :=
| AttributeError
| KeyError
| TypeError
| ValueError
| UnmodelledKey
| UnmodelledCount
| OtherException (msg : string)
| NonException (msg : string).

Definition is_Exception (e : exn) : bool :=
  match e with
  | NonException _ => false
  | _ => true
  end.

Inductive result (A : Type) : Type :=
| Ok (a : A)
| Raise (e : exn).

Arguments Ok {A} a.
Arguments Raise {A} e.

Definition rbind {A B : Type} (r : result A) (k : A -> result B) : result B :=
  match r with
  | Ok a => k a
  | Raise e => Raise e
  end.

Declare Scope result_scope.
Delimit Scope result_scope with result.
Notation "x <~ r ;; k" := (rbind r (fun x => k))
  (at level 100, r at next level, right associativity) : result_scope.
#[local] Open Scope result_scope.

Definition is_Ok {A : Type} (r : result A) : bool :=
  match r with
  | Ok _ => true
  | Raise _ => false
  end.

(** ** Dictionary access *)

(** [d.get(k)] and [d.get(k, dflt)] on a dict. *)
Definition dict_get (d : gmap string pyval) (k : string) (dflt : pyval) : pyval :=
  default dflt (d !! k).

(** The receiver of [.get] / [.items()] must be a dict; any other value has
    no such attribute. *)
Definition as_dict (v : pyval) : result (gmap string pyval) :=
  match v with
  | VDict d => Ok d
  | _ => Raise AttributeError
  end.

(** Key of an in-memory dict.  The dicts of this program are fed from JSON
    objects, whose keys are strings; a list or a dict is unhashable.  Other
    hashable keys ([None], numbers) are outside the model and reported as
    [UnmodelledKey]: results about the handlers assume a [str] name. *)
Definition dict_key (v : pyval) : result string :=
  match v with
  | VStr s => Ok s
  | VList _ | VDict _ => Raise TypeError
  | _ => Raise UnmodelledKey
  end.

(** ** Chart kinds *)

Inductive PlotlyPlotType : Type :=
| Plotly_bar
| Plotly_scatter
| Plotly_line
| Plotly_pie.

Definition PlotlyPlotType_value (t : PlotlyPlotType) : string :=
  match t with
  | Plotly_bar => "bar"
  | Plotly_scatter => "scatter"
  | Plotly_line => "line"
  | Plotly_pie => "pie"
  end.

Inductive PlotType : Type :=
| categorical_histogram
| numeric_histogram
| line
| scatter
| pie.

Definition PlotType_value (t : PlotType) : string :=
  match t with
  | categorical_histogram => "categorical_histogram"
  | numeric_histogram => "numeric_histogram"
  | line => "line"
  | scatter => "scatter"
  | pie => "pie"
  end.

(** The enum call [PlotType(value)]: lookup by value, [ValueError] when no
    member has that value. *)
Definition PlotType_of_string (s : string) : option PlotType :=
  if String.eqb s "categorical_histogram" then Some categorical_histogram
  else if String.eqb s "numeric_histogram" then Some numeric_histogram
  else if String.eqb s "line" then Some line
  else if String.eqb s "scatter" then Some scatter
  else if String.eqb s "pie" then Some pie
  else None.

Definition PlotType_call (v : pyval) : result PlotType :=
  match v with
  | VStr s =>
      match PlotType_of_string s with
      | Some t => Ok t
      | None => Raise ValueError
      end
  | _ => Raise ValueError
  end.

Definition get_plotly_plot_type (plot_type : PlotType) : PlotlyPlotType :=
  match plot_type with
  | categorical_histogram => Plotly_bar
  | numeric_histogram => Plotly_bar
  | line => Plotly_line
  | scatter => Plotly_scatter
  | pie => Plotly_pie
  end.

(** [get_plotly_config_and_layout(plot_config)]: the result dict
    [{"config": config, "layout": layout}]. *)
Definition get_plotly_config_and_layout (plot_config : pyval)
  : result (gmap string pyval) :=
  pc <~ as_dict plot_config ;;
  let layout0 : gmap string pyval := ∅ in
  let layout1 :=
    if truthy (dict_get pc "plot_title" VNone)
    then <["title" := dict_get pc "plot_title" VNone]> layout0
    else layout0 in
  layout2 <~ (if truthy (dict_get pc "color" VNone)
              then color <~ as_dict (dict_get pc "color" VNone) ;;
                   Ok (<["marker" :=
                           VDict {["color" := dict_get color "hex" VNone]}]> layout1)
              else Ok layout1) ;;
  let layout3 :=
    if truthy (dict_get pc "xaxis" VNone)
    then <["xaxis" := dict_get pc "xaxis" VNone]> layout2
    else layout2 in
  let layout4 :=
    if truthy (dict_get pc "yaxis" VNone)
    then <["yaxis" := dict_get pc "yaxis" VNone]> layout3
    else layout3 in
  let layout5 :=
    if py_eq_str (dict_get pc "plot_type" VNone) "numeric_histogram"
    then <["bargroupgap" := VInt 0]> (<["bargap" := VInt 0]> layout4)
    else layout4 in
  Ok (<["layout" := VDict layout5]> {["config" := VDict ∅]}).

(** ** One widget: [DashboardPlotItem] *)

Module DashboardPlotItem.

Record t : Type := mk {
  name : pyval;
  type : PlotType;
  raw_params : pyval;
  config : pyval;
  layout : pyval;
  use_code : pyval;
  code : pyval;
  update_on_change : pyval;
  x_field : pyval;
  y_field : pyval;
  field : pyval;
  bins : pyval;
}.

(** The constructor; [self.type = PlotType(type)] is its only failing step. *)
Definition __init__ (name type config layout raw_params use_code code
                     update_on_change x_field y_field field bins : pyval)
  : result t :=
  ty <~ PlotType_call type ;;
  Ok {| name := name; type := ty; raw_params := raw_params;
        config := config; layout := layout; use_code := use_code;
        code := code; update_on_change := update_on_change;
        x_field := x_field; y_field := y_field; field := field;
        bins := bins |}.

Definition from_dict (data : pyval) : result t :=
  d <~ as_dict data ;;
  __init__
    (dict_get d "name" VNone)
    (dict_get d "type" VNone)
    (dict_get d "config" VNone)
    (dict_get d "layout" VNone)
    (dict_get d "raw_params" VNone)
    (dict_get d "use_code" (VBool false))
    (dict_get d "code" VNone)
    (dict_get d "update_on_change" VNone)
    (dict_get d "x_field" VNone)
    (dict_get d "y_field" VNone)
    (dict_get d "field" VNone)
    (dict_get d "bins" (VInt 10)).

(** The [label] property: [self.config.get("title", self.name)]. *)
Definition label (self : t) : result pyval :=
  c <~ as_dict (config self) ;;
  Ok (dict_get c "title" (name self)).

(** [{**self.raw_params, "name": self.name}]: unpacking needs a mapping. *)
Definition to_configure_plot_params (self : t) : result pyval :=
  match raw_params self with
  | VDict r => Ok (VDict (<["name" := name self]> r))
  | _ => Raise TypeError
  end.

Definition to_dict_map (self : t) : gmap string pyval :=
  <["name" := name self]>
  (<["type" := VStr (PlotType_value (type self))]>
  (<["config" := config self]>
  (<["layout" := layout self]>
  (<["raw_params" := raw_params self]>
  (<["use_code" := use_code self]>
  (<["code" := code self]>
  (<["update_on_change" := update_on_change self]>
  (<["x_field" := x_field self]>
  (<["y_field" := y_field self]>
  (<["field" := field self]>
  (<["bins" := bins self]> ∅))))))))))).

Definition to_dict (self : t) : pyval := VDict (to_dict_map self).

End DashboardPlotItem.

(** ** The host: view, panel, execution context *)

(** An argument of [view.values]: a field path, or the expression [F(v)]. *)
Inductive field_or_expr : Type :=
| FieldName (path : string)
| F (v : pyval).

(** The aggregations of the active view.  They are the host's; each may
    raise.  [histogram_values] returns [(counts, edges, other)]. *)
Record View : Type := mkView {
  count_values : pyval -> result (list (pyval * Z));
  histogram_values : pyval -> pyval -> result (list Z * list float * Z);
  values : field_or_expr -> result (list pyval);
}.

(** Panel storage: the persisted key/value state and the render data, the
    latter addressed by path. *)
Record Panel : Type := mkPanel {
  state : gmap string pyval;
  data : gmap string pyval;
}.

Definition get_state (p : Panel) (key : string) : pyval :=
  default VNone (state p !! key).

Definition set_state (p : Panel) (key : string) (v : pyval) : Panel :=
  {| state := <[key := v]> (state p); data := data p |}.

Definition batch_set_data (p : Panel) (paths : gmap string pyval) : Panel :=
  {| state := state p; data := paths ∪ data p |}.

Record User : Type := mkUser {
  dataset_permission : pyval;
}.

(** [hasattr(ctx, "user")], and the attribute's value when it is there
    ([None] for Python's [None]). *)
Inductive user_attr : Type :=
| NoUserAttr
| UserAttr (u : option User).

(** The panel methods handed to the host as callbacks. *)
Inductive callback : Type :=
| cb_on_add
| cb_on_remove
| cb_on_edit
| cb_on_configure_plot
| cb_on_edit_success
| cb_on_click_plot
| cb_on_plot_select.

(** A recorded [ctx.prompt(uri, on_success=..., params=...)]. *)
Record Prompt : Type := mkPrompt {
  prompt_uri : string;
  prompt_on_success : callback;
  prompt_params : option pyval;
}.

(** [exec_snippet] is the interpreter run of a snippet against this context:
    it returns the snippet's local variables.  Snippets are taken to compute
    a value and leave the panel alone. *)
Record ExecutionContext : Type := mkCtx {
  params : gmap string pyval;
  user : user_attr;
  view : View;
  exec_snippet : Panel -> pyval -> result (gmap string pyval);
  panel : Panel;
  prompts : list Prompt;
}.

Definition with_panel (ctx : ExecutionContext) (p : Panel) : ExecutionContext :=
  {| params := params ctx; user := user ctx; view := view ctx;
     exec_snippet := exec_snippet ctx; panel := p; prompts := prompts ctx |}.

Definition prompt (ctx : ExecutionContext) (uri : string) (on_success : callback)
    (ps : option pyval) : ExecutionContext :=
  {| params := params ctx; user := user ctx; view := view ctx;
     exec_snippet := exec_snippet ctx; panel := panel ctx;
     prompts := prompts ctx ++ [mkPrompt uri on_success ps] |}.

(** The integers of a numpy int64 array, and two's-complement wrap-around
    into them. *)
Definition in_int64 (z : Z) : bool := (- 2 ^ 63 <=? z) && (z <? 2 ^ 63).

Definition int64_wrap (z : Z) : Z := (z + 2 ^ 63) mod 2 ^ 64 - 2 ^ 63.

(** An int64 to float64, rounded to nearest even: the kernel's conversion
    of the magnitude, with the one magnitude it cannot hold, 2^63, written
    out.  Meant for arguments within int64. *)
Definition float_of_int64 (z : Z) : float :=
  if z <? 0
  then PrimFloat.opp
         (if z =? - 2 ^ 63
          then PrimFloat.mul 2%float (PrimFloat.of_uint63 (Uint63.of_Z (2 ^ 62)))
          else PrimFloat.of_uint63 (Uint63.of_Z (- z)))
  else PrimFloat.of_uint63 (Uint63.of_Z z).

(** [np.sum] of a list of ints that all fit int64: the sum wraps around in
    int64.  (Of the empty list it is the float 0.0, which converts like the
    integer.) *)
Definition np_sum (vals : list Z) : Z := int64_wrap (foldr Z.add 0 vals).

(** ** Mutation and exceptions *)

(** Methods mutate their object and may raise: a state-and-exception monad
    in which the state survives a raise, as a mutated object does. *)
Definition stexn (S A : Type) : Type := S -> result A * S.

Definition mret {S A : Type} (a : A) : stexn S A := fun self => (Ok a, self).

Definition mbind {S A B : Type} (m : stexn S A) (k : A -> stexn S B) : stexn S B :=
  fun self =>
    match m self with
    | (Ok a, self') => k a self'
    | (Raise e, self') => (Raise e, self')
    end.

Definition lift {S A : Type} (r : result A) : stexn S A := fun self => (r, self).

Definition reads {S A : Type} (f : S -> result A) : stexn S A :=
  fun self => (f self, self).

Definition modify {S : Type} (f : S -> S) : stexn S unit := fun self => (Ok tt, f self).

Declare Scope dash_scope.
Delimit Scope dash_scope with dash.
Notation "x <- m ;; k" := (mbind m (fun x => k))
  (at level 100, m at next level, right associativity) : dash_scope.
Notation "m ;;; k" := (mbind m (fun _ => k))
  (at level 100, right associativity) : dash_scope.

(** ** The collection: [DashboardState] *)

Module DashboardState.

Record t : Type := mk {
  ctx : ExecutionContext;
  _items : gmap string DashboardPlotItem.t;
  _data : gmap string pyval;
}.

(** Methods that mutate [self] and may raise. *)
Definition M (A : Type) : Type := stexn t A.

Definition set_items (its : gmap string DashboardPlotItem.t) (self : t) : t :=
  {| ctx := ctx self; _items := its; _data := _data self |}.

Definition set_data (d : gmap string pyval) (self : t) : t :=
  {| ctx := ctx self; _items := _items self; _data := d |}.

Definition set_panel (p : Panel) (self : t) : t :=
  {| ctx := with_panel (ctx self) p; _items := _items self; _data := _data self |}.

(** The loop of [__init__]: [self._items[key] = from_dict(item)] for every
    stored entry.  When several entries are malformed, the exception that
    surfaces follows the map's traversal order. *)
Definition load_items (d : gmap string pyval)
  : result (gmap string DashboardPlotItem.t) :=
  map_fold
    (fun key item acc =>
       its <~ acc ;;
       it <~ DashboardPlotItem.from_dict item ;;
       Ok (<[key := it]> its))
    (Ok ∅) d.

Definition __init__ (c : ExecutionContext) : result t :=
  let items := get_state (panel c) "items_config" in
  if truthy items
  then d <~ as_dict items ;;
       its <~ load_items d ;;
       Ok {| ctx := c; _items := its; _data := ∅ |}
  else Ok {| ctx := c; _items := ∅; _data := ∅ |}.

Definition is_empty (self : t) : bool := (size (_items self) =? 0)%nat.

(** [self._items.values()]. *)
Definition items (self : t) : list DashboardPlotItem.t :=
  (map_to_list (_items self)).*2.

Definition item_count (self : t) : nat := size (_items self).

Definition items_as_dict (self : t) : pyval :=
  VDict (DashboardPlotItem.to_dict <$> _items self).

Definition apply_state (self : t) : t :=
  set_panel (set_state (panel (ctx self)) "items_config" (items_as_dict self)) self.

(** The render-data path of a widget, [f"items.{k}"]. *)
Definition data_path (k : string) : string := "items." +:+ k.

Definition apply_data (self : t) : t :=
  let data_paths_dict : gmap string pyval := kmap data_path (_data self) in
  set_panel (batch_set_data (panel (ctx self)) data_paths_dict) self.

(** [self._items.get(item_id, None)]: a key that is no [str] is not in the
    collection; an unhashable one is a [TypeError]. *)
Definition get_item (self : t) (item_id : pyval)
  : result (option DashboardPlotItem.t) :=
  match item_id with
  | VStr s => Ok (_items self !! s)
  | VList _ | VDict _ => Raise TypeError
  | _ => Ok None
  end.

(** [self._items.pop(item_id)]. *)
Definition remove_item (item_id : pyval) : M unit :=
  fun self =>
    match item_id with
    | VStr s =>
        match _items self !! s with
        | Some _ => (Ok tt, set_items (delete s (_items self)) self)
        | None => (Raise KeyError, self)
        end
    | VList _ | VDict _ => (Raise TypeError, self)
    | _ => (Raise KeyError, self)
    end.

Definition clear_items : M unit := modify (set_items ∅).

(** [f"plot_{random.randint(0, 1000)}"], given the number drawn. *)
Definition get_next_item_id (drawn : Z) : string := "plot_" +:+ pretty drawn.

(** *** Data-loading adapters *)

Definition load_categorical_histogram_data (self : t) (item : DashboardPlotItem.t)
  : result pyval :=
  let field := DashboardPlotItem.field item in
  if negb (truthy field) then Ok (VDict ∅)
  else
    counts <~ count_values (view (ctx self)) field ;;
    Ok (VDict (<["x" := VList (counts.*1)]>
              (<["y" := VList (VInt <$> counts.*2)]>
              (<["type" := VStr "bar"]> ∅)))).

(** [edges[:-1]] and [edges[1:] - edges[:-1]] on a float64 array. *)
Definition left_edges (edges : list float) : list float :=
  take (length edges - 1)%nat edges.

Definition widths (edges : list float) : list float :=
  zip_with PrimFloat.sub (drop 1 edges) (take (length edges - 1)%nat edges).

Definition load_numeric_histogram_data (self : t) (item : DashboardPlotItem.t)
  : result pyval :=
  let x := DashboardPlotItem.x_field item in
  let bins := DashboardPlotItem.bins item in
  if negb (truthy x) then Ok (VDict ∅)
  else
    r <~ histogram_values (view (ctx self)) x bins ;;
    let '(counts, edges, other) := r in
    Ok (VDict (<["x" := VList (VFloat <$> left_edges edges)]>
              (<["y" := VList (VInt <$> counts)]>
              (<["type" := VStr "bar"]>
              (<["width" := VList (VFloat <$> widths edges)]> ∅))))).

Definition load_scatter_data (self : t) (item : DashboardPlotItem.t)
  : result pyval :=
  x <~ values (view (ctx self)) (F (DashboardPlotItem.x_field item)) ;;
  y <~ values (view (ctx self)) (F (DashboardPlotItem.y_field item)) ;;
  ids <~ values (view (ctx self)) (FieldName "id") ;;
  if negb (truthy (VList x)) || negb (truthy (VList y)) then Ok (VDict ∅)
  else
    Ok (VDict (<["x" := VList x]>
              (<["y" := VList y]>
              (<["ids" := VList ids]>
              (<["type" := VStr "scatter"]>
              (<["mode" := VStr "markers"]> ∅)))))).

Definition load_line_data (self : t) (item : DashboardPlotItem.t)
  : result pyval :=
  if is_None (DashboardPlotItem.x_field item)
     || is_None (DashboardPlotItem.y_field item)
  then Ok (VDict ∅)
  else
    x <~ values (view (ctx self)) (F (DashboardPlotItem.x_field item)) ;;
    y <~ values (view (ctx self)) (F (DashboardPlotItem.y_field item)) ;;
    Ok (VDict (<["x" := VList x]>
              (<["y" := VList y]>
              (<["type" := VStr "line"]> ∅)))).

(** The counts make an int64 array when each fits int64 (numpy's default
    integer being 64-bit); the sum then wraps around in int64, a zero sum
    divides to an infinity without raising, and each count is converted to
    float64 for its product.  Counts beyond int64 make an array of another
    dtype: they are outside the model and reported as [UnmodelledCount]. *)
Definition load_pie_data (self : t) (item : DashboardPlotItem.t)
  : result pyval :=
  let field := DashboardPlotItem.field item in
  if negb (truthy field) then Ok (VDict ∅)
  else
    counts <~ count_values (view (ctx self)) field ;;
    let vals := counts.*2 in
    let keys := counts.*1 in
    if negb (forallb in_int64 vals) then Raise UnmodelledCount
    else
    let sum := np_sum vals in
    let factor := PrimFloat.div 100%float (float_of_int64 sum) in
    let factored_values :=
      (fun v => VFloat (PrimFloat.mul (float_of_int64 v) factor)) <$> vals in
    config <~ as_dict (DashboardPlotItem.config item) ;;
    Ok (VDict (<["values" := VList factored_values]>
              (<["labels" := VList keys]>
              (<["type" := VStr "pie"]>
              (<["name" := dict_get config "title" (VStr "Pie Chart")]> ∅))))).

(** [exec] of the snippet, then [data["type"] = ...] on its [data] local.
    [except Exception] turns every [Exception] into the empty payload;
    item assignment on a value that is no dict is a [TypeError], caught
    the same way. *)
Definition load_data_from_code (self : t) (code : pyval) (plot_type : PlotType)
  : result pyval :=
  if negb (truthy code) then Ok (VDict ∅)
  else
    match exec_snippet (ctx self) (panel (ctx self)) code with
    | Ok local_vars =>
        match dict_get local_vars "data" (VDict ∅) with
        | VDict d =>
            Ok (VDict (<["type" :=
                  VStr (PlotlyPlotType_value (get_plotly_plot_type plot_type))]> d))
        | _ => Ok (VDict ∅)
        end
    | Raise e => if is_Exception e then Ok (VDict ∅) else Raise e
    end.

Definition load_plot_data_for_item (self : t) (item : DashboardPlotItem.t)
  : result pyval :=
  if truthy (DashboardPlotItem.use_code item)
  then load_data_from_code self (DashboardPlotItem.code item)
                           (DashboardPlotItem.type item)
  else
    match DashboardPlotItem.type item with
    | categorical_histogram => load_categorical_histogram_data self item
    | numeric_histogram => load_numeric_histogram_data self item
    | scatter => load_scatter_data self item
    | line => load_line_data self item
    | pie => load_pie_data self item
    end.

Definition load_plot_data (self : t) (plot_id : pyval) : result pyval :=
  item <~ get_item self plot_id ;;
  match item with
  | None => Ok (VDict ∅)
  | Some it => load_plot_data_for_item self it
  end.

#[local] Open Scope dash_scope.

(** [self._items[key] = item] and [self._data[key] = data]. *)
Definition setitem_items (key : pyval) (item : DashboardPlotItem.t) : M unit :=
  k <- lift (dict_key key) ;;
  modify (fun self => set_items (<[k := item]> (_items self)) self).

Definition setitem_data (key : pyval) (d : pyval) : M unit :=
  k <- lift (dict_key key) ;;
  modify (fun self => set_data (<[k := d]> (_data self)) self).

Definition add_plot (item : DashboardPlotItem.t) : M unit :=
  setitem_items (DashboardPlotItem.name item) item ;;;
  d <- reads (fun self => load_plot_data_for_item self item) ;;
  setitem_data (DashboardPlotItem.name item) d ;;;
  modify apply_data.

Definition edit_plot (item : DashboardPlotItem.t) : M unit :=
  setitem_items (DashboardPlotItem.name item) item ;;;
  d <- reads (fun self => load_plot_data_for_item self item) ;;
  setitem_data (DashboardPlotItem.name item) d ;;;
  modify apply_data.

(** A [for] loop over a list, stopping at the first raise. *)
Fixpoint for_each {A : Type} (l : list A) (body : A -> M unit) : M unit :=
  match l with
  | [] => mret tt
  | x :: l' => body x ;;; for_each l' body
  end.

Definition load_all_plot_data : M unit :=
  its <- reads (fun self => Ok (items self)) ;;
  for_each its (fun item =>
    d <- reads (fun self => load_plot_data self (DashboardPlotItem.name item)) ;;
    setitem_data (DashboardPlotItem.name item) d) ;;;
  modify apply_data.

Definition can_load_data (self : t) (item : DashboardPlotItem.t) : bool :=
  if truthy (DashboardPlotItem.code item) then true
  else
    match DashboardPlotItem.type item with
    | categorical_histogram => negb (is_None (DashboardPlotItem.field item))
    | numeric_histogram => negb (is_None (DashboardPlotItem.x_field item))
    | scatter | line =>
        negb (is_None (DashboardPlotItem.x_field item))
        && negb (is_None (DashboardPlotItem.y_field item))
    | pie => negb (is_None (DashboardPlotItem.field item))
    end.

(** *** The context manager *)

Definition __enter__ (self : t) : t := self.

(** [__exit__]: re-serialize, report, and return [True]. *)
Definition __exit__ (exc : option exn) : M bool :=
  modify apply_state ;;;
  mret true.

(** [with DashboardState(ctx) as s: body], on the constructed object: the
    exception of the body is re-raised unless [__exit__] returns a true
    value. *)
Definition with_ (self : t) (body : M unit) : result unit * t :=
  let '(r, s1) := body (__enter__ self) in
  let exc := match r with Ok _ => None | Raise e => Some e end in
  match __exit__ exc s1 with
  | (Ok suppress, s2) =>
      match r with
      | Ok _ => (Ok tt, s2)
      | Raise e => if suppress then (Ok tt, s2) else (Raise e, s2)
      end
  | (Raise e', s2) => (Raise e', s2)
  end.

End DashboardState.

(** ** Rendered properties *)

Record PlotlyView : Type := mkPlotlyView {
  plotly_config : pyval;
  plotly_layout : pyval;
  on_click : callback;
  on_selected : callback;
  x_data_source : pyval;
  y_data_source : pyval;
}.

Module DashboardPlotProperty.

Record t : Type := mk {
  name : pyval;
  label : pyval;
  view : PlotlyView;
}.

Definition __init__ (item : DashboardPlotItem.t)
    (on_click_plot on_plot_select : callback) : result t :=
  let name := DashboardPlotItem.name item in
  label <~ DashboardPlotItem.label item ;;
  let plot_config := DashboardPlotItem.config item in
  let plot_layout := DashboardPlotItem.layout item in
  let x_field := DashboardPlotItem.x_field item in
  let y_field := DashboardPlotItem.y_field item in
  let view := {| plotly_config := plot_config; plotly_layout := plot_layout;
                 on_click := on_click_plot; on_selected := on_plot_select;
                 x_data_source := x_field; y_data_source := y_field |} in
  Ok {| name := name; label := label; view := view |}.

Definition from_item (item : DashboardPlotItem.t)
    (on_click_plot on_plot_select : callback) : result t :=
  __init__ item on_click_plot on_plot_select.

End DashboardPlotProperty.

Record DashboardView : Type := mkDashboardView {
  on_add_item : callback;
  on_remove_item : callback;
  on_edit_item : callback;
  allow_edit : pyval;
  allow_remove : pyval;
  allow_add : pyval;
  width : Z;
  height : option Z;
}.

(** [types.Property(dashboard, view=dashboard_view)]: the object's
    properties in the order they were added, and its view. *)
Record DashboardProperty : Type := mkDashboardProperty {
  properties : list (pyval * DashboardPlotProperty.t);
  dashboard_view : DashboardView;
}.

Fixpoint result_mapM {A B : Type} (f : A -> result B) (l : list A) : result (list B) :=
  match l with
  | [] => Ok []
  | x :: l' => y <~ f x ;; ys <~ result_mapM f l' ;; Ok (y :: ys)
  end.

(** ** Permissions *)

(** [ctx.user and ctx.user.dataset_permission == "can_edit"] under
    [hasattr(ctx, "user")], [True] otherwise.  A user object is truthy; the
    [and] hands back a falsy [ctx.user] itself. *)
Definition can_edit (ctx : ExecutionContext) : pyval :=
  match user ctx with
  | UserAttr u =>
      match u with
      | None => VNone
      | Some usr => VBool (py_eq_str (dataset_permission usr) "can_edit")
      end
  | NoUserAttr => VBool true
  end.

(** ** Iteration and unpacking *)

(** The elements a [for] or a comprehension draws from a value: the items of
    a list, the characters of a [str], the keys of a dict (in the map's
    traversal order); any other value is not iterable. *)
Definition py_iter (v : pyval) : result (list pyval) :=
  match v with
  | VList l => Ok l
  | VStr s => Ok ((fun a => VStr (String a EmptyString)) <$> String.list_ascii_of_string s)
  | VDict d => Ok (VStr <$> (map_to_list d).*1)
  | _ => Raise TypeError
  end.

(** [a, b = v]: [TypeError] on a value that is not iterable, [ValueError]
    unless it yields exactly two elements. *)
Definition unpack2 (v : pyval) : result (pyval * pyval) :=
  l <~ py_iter v ;;
  match l with
  | [a; b] => Ok (a, b)
  | _ => Raise ValueError
  end.

(** ** Dataset schema and views *)

(** A field of the flat schema, by the classes [isinstance] tests it
    against; a [ListField] carries its element field, if it declares one. *)
Inductive Field : Type :=
| IntField
| FloatField
| StringField
| BooleanField
| ListField (field : option Field)
| OtherField.

Inductive field_class : Type :=
| cls_IntField
| cls_FloatField
| cls_StringField
| cls_BooleanField.

Definition instance_of (f : Field) (c : field_class) : bool :=
  match f, c with
  | IntField, cls_IntField => true
  | FloatField, cls_FloatField => true
  | StringField, cls_StringField => true
  | BooleanField, cls_BooleanField => true
  | _, _ => false
  end.

(** [isinstance(f, field_types)] for a tuple of classes. *)
Definition isinstance (f : Field) (field_types : list field_class) : bool :=
  existsb (instance_of f) field_types.

Definition NUMERIC_TYPES : list field_class := [cls_IntField; cls_FloatField].

Definition CATEGORICAL_TYPES : list field_class :=
  [cls_StringField; cls_BooleanField; cls_IntField; cls_FloatField].

(** [path.startswith(prefix + ".")]. *)
Definition starts_with_dotted (prefix path : string) : bool :=
  String.prefix (prefix +:+ ".") path.

(** [field.fo]: the field classes have no attribute [fo].  (Had they one,
    the one-argument [isinstance] around it would be a [TypeError].) *)
Definition field_fo (f : Field) : result Field := Raise AttributeError.

(** [get_root(dataset, path)], over [dataset.get_field_schema(flat=True)]
    as the list of its entries.  The [and] reaches [field.fo] only when the
    prefix test holds. *)
Definition get_root (schema : list (string * Field)) (path : string)
  : result (option string) :=
  foldl (fun acc entry =>
           root <~ acc ;;
           let '(_path, field) := entry in
           if starts_with_dotted _path path
           then fo <~ field_fo field ;;
                Ok (Some _path)
           else Ok root)
        (Ok None) schema.

(** [get_fields_with_type(dataset, field_types, root)], over the flat
    schema of the dataset or view. *)
Definition get_fields_with_type (schema : list (string * Field))
    (field_types : list field_class) (root : option string) : list string :=
  (filter (fun entry : string * Field =>
             let '(path, field) := entry in
             (match root with
              | Some r => starts_with_dotted r path
              | None => true
              end)
             && (isinstance field field_types
                 || match field with
                    | ListField (Some sub) => isinstance sub field_types
                    | _ => false
                    end) = true)
          schema).*1.

(** [requires_x] and [requires_y], and [PlotDefinition.requires_source]:
    [None] for a dimension that is neither ["x"] nor ["y"]. *)
Definition requires_x : list PlotType := [scatter; line; numeric_histogram].
Definition requires_y : list PlotType := [scatter; line].

Definition PlotType_eqb (a b : PlotType) : bool :=
  String.eqb (PlotType_value a) (PlotType_value b).

Definition requires_source (plot_type : PlotType) (dim : string) : option bool :=
  if String.eqb dim "x" then Some (existsb (PlotType_eqb plot_type) requires_x)
  else if String.eqb dim "y" then Some (existsb (PlotType_eqb plot_type) requires_y)
  else None.

(** A view the dataset hands back, by the stages that describe it. *)
Inductive view_handle : Type :=
| ViewHandle (stages : pyval).

(** [ctx.dataset]: the calls the panel makes on it; each may raise. *)
Record Dataset : Type := mkDataset {
  match_values : pyval -> pyval -> result view_handle;
  select : list pyval -> result view_handle;
}.

(** What a click or a selection asks of the host: [ctx.ops.set_view(view)]
    or [ctx.trigger(operator, params)]. *)
Inductive host_action : Type :=
| SetView (v : view_handle)
| Trigger (operator : string) (ps : pyval).

(** The parameters of the [set_view] trigger: one [Match] stage. *)
Definition match_stage (flt : gmap string pyval) : pyval :=
  VDict {["view" :=
    VList [VDict (<["_cls" := VStr "fiftyone.core.stages.Match"]>
                  {["kwargs" := VList [VList [VStr "filter"; VDict flt]]]})]]}.

Definition with_params (ctx : ExecutionContext) (ps : gmap string pyval)
  : ExecutionContext :=
  {| params := ps; user := user ctx; view := view ctx;
     exec_snippet := exec_snippet ctx; panel := panel ctx;
     prompts := prompts ctx |}.

(** ** The panel: [CustomDashboard] *)

Module CustomDashboard.

Import DashboardState.
#[local] Open Scope dash_scope.

(** An event handler: what it raises, and the context it leaves. *)
Definition handler : Type := ExecutionContext -> result unit * ExecutionContext.

Definition configure_plot_uri : string := "@voxel51/custom_dashboard/configure_plot".

Definition on_load : handler :=
  fun c =>
    match DashboardState.__init__ c with
    | Raise e => (Raise e, c)
    | Ok dashboard_state =>
        let '(r, s) := load_all_plot_data dashboard_state in
        (r, ctx s)
    end.

Definition on_change_view : handler :=
  fun c =>
    match DashboardState.__init__ c with
    | Raise e => (Raise e, c)
    | Ok dashboard_state =>
        let '(r, s) :=
          (for_each (items dashboard_state) (fun item =>
             if truthy (DashboardPlotItem.update_on_change item)
             then d <- reads (fun self =>
                           load_plot_data self (DashboardPlotItem.name item)) ;;
                  setitem_data (DashboardPlotItem.name item) d
             else mret tt) ;;;
           modify apply_data) dashboard_state in
        (r, ctx s)
    end.

Definition on_add : handler :=
  fun c =>
    if truthy (can_edit c)
    then (Ok tt, prompt c configure_plot_uri cb_on_configure_plot None)
    else (Ok tt, c).

(** The constructor call of [handle_plot_change]: the widget built from
    the prompt's result [raw] (a dict with entries [r]) and the layout and
    config [p] derived from it.  [drawn] is the number
    [random.randint(0, 1000)] returns in this call; the default of
    [result.get("name", ...)] is evaluated either way. *)
Definition plot_item (drawn : Z) (raw : pyval) (r p : gmap string pyval)
  : result DashboardPlotItem.t :=
  let plot_layout := dict_get p "layout" (VDict ∅) in
  let plot_config := dict_get p "config" (VDict ∅) in
  let plot_type := dict_get r "plot_type" VNone in
  let code := dict_get r "code" VNone in
  let update_on_change := dict_get r "update_on_change" VNone in
  let name := dict_get r "name" (VStr (get_next_item_id drawn)) in
  DashboardPlotItem.__init__
    name plot_type plot_config plot_layout raw
    (dict_get r "use_code" (VBool false))
    code update_on_change
    (dict_get r "x_field" VNone)
    (dict_get r "y_field" VNone)
    (dict_get r "field" VNone)
    (dict_get r "bins" (VInt 10)).

Definition handle_plot_change (drawn : Z) (edit : bool) : handler :=
  fun c =>
    let raw := dict_get (params c) "result" VNone in
    match (p <~ get_plotly_config_and_layout raw ;;
           r <~ as_dict raw ;;
           Ok (p, r)) with
    | Raise e => (Raise e, c)
    | Ok (p, r) =>
        match DashboardState.__init__ c with
        | Raise e => (Raise e, c)
        | Ok dashboard_state =>
            let '(res, s) :=
              with_ dashboard_state
                (item <- lift (plot_item drawn raw r p) ;;
                 if edit then edit_plot item else add_plot item) in
            (res, ctx s)
        end
    end.

Definition on_configure_plot (drawn : Z) : handler :=
  handle_plot_change drawn false.

Definition on_edit_success (drawn : Z) : handler :=
  handle_plot_change drawn true.

Definition on_edit : handler :=
  fun c =>
    let plot_id := dict_get (params c) "id" VNone in
    match (dashboard_state <~ DashboardState.__init__ c ;;
           get_item dashboard_state plot_id) with
    | Raise e => (Raise e, c)
    | Ok None => (Ok tt, c)
    | Ok (Some item) =>
        if truthy (can_edit c)
        then match DashboardPlotItem.to_configure_plot_params item with
             | Raise e => (Raise e, c)
             | Ok ps => (Ok tt, prompt c configure_plot_uri cb_on_edit_success (Some ps))
             end
        else (Ok tt, c)
    end.

Definition on_remove : handler :=
  fun c =>
    if truthy (can_edit c)
    then
      let plot_id := dict_get (params c) "id" VNone in
      match DashboardState.__init__ c with
      | Raise e => (Raise e, c)
      | Ok dashboard_state =>
          let '(res, s) := with_ dashboard_state (remove_item plot_id) in
          (res, ctx s)
      end
    else (Ok tt, c).

Definition render_dashboard (c : ExecutionContext)
    (on_click_plot on_plot_select : callback) : result DashboardProperty :=
  dashboard_state <~ DashboardState.__init__ c ;;
  dashboard <~ result_mapM (fun dashboard_item =>
                 p <~ DashboardPlotProperty.from_item dashboard_item
                        on_click_plot on_plot_select ;;
                 Ok (DashboardPlotItem.name dashboard_item, p))
               (items dashboard_state) ;;
  let user_can_edit := can_edit c in
  let dashboard_view :=
    {| on_add_item := cb_on_add;
       on_remove_item := cb_on_remove;
       on_edit_item := cb_on_edit;
       allow_edit := user_can_edit;
       allow_remove := user_can_edit;
       allow_add := user_can_edit;
       width := 100;
       height := if is_empty dashboard_state then Some 100 else None |} in
  Ok {| properties := dashboard; dashboard_view := dashboard_view |}.

(** [on_click_plot], by the host actions it issues; [dataset] is
    [ctx.dataset].  The handler reads the widget's attributes before any
    test, so a path that names no widget is an [AttributeError]. *)
Definition on_click_plot (dataset : Dataset) (c : ExecutionContext)
  : result (list host_action) :=
  let plot_id := dict_get (params c) "relative_path" VNone in
  dashboard <~ DashboardState.__init__ c ;;
  found <~ get_item dashboard plot_id ;;
  match found with
  | None => Raise AttributeError
  | Some item =>
      if truthy (DashboardPlotItem.use_code item)
         || PlotType_eqb (DashboardPlotItem.type item) pie
      then Ok []
      else
        let x_field := DashboardPlotItem.x_field item in
        let y_field := DashboardPlotItem.y_field item in
        match DashboardPlotItem.type item with
        | categorical_histogram =>
            let x_field := DashboardPlotItem.field item in
            let x := dict_get (params c) "x" VNone in
            v <~ match_values dataset x_field x ;;
            Ok [SetView v]
        | numeric_histogram =>
            let range := dict_get (params c) "range" VNone in
            if truthy range
            then mm <~ unpack2 range ;;
                 let '(min, max) := mm in
                 k <~ dict_key x_field ;;
                 let flt : gmap string pyval :=
                   {[k := VDict (<["$gte" := min]> {["$lte" := max]})]} in
                 Ok [Trigger "set_view" (match_stage flt)]
            else Ok []
        | scatter | line =>
            let range := dict_get (params c) "range" VNone in
            if truthy range
            then let x := dict_get (params c) "x" VNone in
                 let y := dict_get (params c) "y" VNone in
                 kx <~ dict_key x_field ;;
                 ky <~ dict_key y_field ;;
                 let flt : gmap string pyval := <[ky := y]> {[kx := x]} in
                 Ok [Trigger "set_view" (match_stage flt)]
            else Ok []
        | pie => Ok []
        end
  end.

(** [on_plot_select]: the selected samples become the view. *)
Definition on_plot_select (dataset : Dataset) (c : ExecutionContext)
  : result (list host_action) :=
  let plot_id := dict_get (params c) "relative_path" VNone in
  dashboard <~ DashboardState.__init__ c ;;
  found <~ get_item dashboard plot_id ;;
  match found with
  | None => Raise AttributeError
  | Some item =>
      if truthy (DashboardPlotItem.use_code item)
         || PlotType_eqb (DashboardPlotItem.type item) pie
      then Ok []
      else
        match DashboardPlotItem.type item with
        | scatter | line =>
            let data := dict_get (params c) "data" VNone in
            entries <~ py_iter data ;;
            ids <~ result_mapM (fun d => e <~ as_dict d ;; Ok (dict_get e "id" VNone))
                     entries ;;
            match ids with
            | [] => Ok []
            | _ :: _ =>
                matched_ids_view <~ select dataset ids ;;
                Ok [SetView matched_ids_view]
            end
        | _ => Ok []
        end
  end.

End CustomDashboard.

(** ** The operator: [ConfigurePlot] *)

Module ConfigurePlot.


End ConfigurePlot.

(** ** Vocabulary of the statements *)

(** The values of the [PlotType] enumeration. *)
Definition five_values : list string :=
  ["categorical_histogram"; "numeric_histogram"; "line"; "scatter"; "pie"].

(** The widget a stored entry decodes to, when it does. *)
Definition item_of (v : pyval) : option DashboardPlotItem.t :=
  match DashboardPlotItem.from_dict v with
  | Ok it => Some it
  | Raise _ => None
  end.

Definition decodable (d : gmap string pyval) : Prop :=
  map_Forall (fun _ v => is_Some (item_of v)) d.

(** Every widget sits under its own name: what [add_plot] and [edit_plot]
    establish, and so what every collection the panel has written obeys. *)
Definition keyed_by_name (its : gmap string DashboardPlotItem.t) : Prop :=
  forall k it, its !! k = Some it -> DashboardPlotItem.name it = VStr k.

(** The name the prompt's result carries, when it carries one, is a [str]. *)
Definition str_name (c : ExecutionContext) : bool :=
  match dict_get (params c) "result" VNone with
  | VDict r =>
      match r !! "name" with
      | Some (VStr _) | None => true
      | Some _ => false
      end
  | _ => true
  end.

(** The three callbacks that change the collection. *)
Inductive invocation : Type :=
| Add (drawn : Z)
| Edit (drawn : Z)
| Remove.

Definition invoke (i : invocation) : CustomDashboard.handler :=
  match i with
  | Add drawn => CustomDashboard.on_configure_plot drawn
  | Edit drawn => CustomDashboard.on_edit_success drawn
  | Remove => CustomDashboard.on_remove
  end.

(** Whether the callback reaches its [with DashboardState(ctx)] block. *)
Definition mutates (i : invocation) (c : ExecutionContext) : bool :=
  match i with
  | Remove => truthy (can_edit c)
  | _ => true
  end.

(** The collection a callback leaves, from the one [its] it loaded: the
    configured widget stored under its name (nothing stored when its
    construction raised), or the named widget taken out. *)
Definition stored_under (item : result DashboardPlotItem.t)
    (its : gmap string DashboardPlotItem.t) : gmap string DashboardPlotItem.t :=
  match item with
  | Ok it =>
      match DashboardPlotItem.name it with
      | VStr k => <[k := it]> its
      | _ => its
      end
  | Raise _ => its
  end.

Definition post_mutation (i : invocation) (c : ExecutionContext)
    (its : gmap string DashboardPlotItem.t) : gmap string DashboardPlotItem.t :=
  match i with
  | Add drawn | Edit drawn =>
      let raw := dict_get (params c) "result" VNone in
      match raw, get_plotly_config_and_layout raw with
      | VDict r, Ok p => stored_under (CustomDashboard.plot_item drawn raw r p) its
      | _, _ => its
      end
  | Remove =>
      match dict_get (params c) "id" VNone with
      | VStr k => delete k its
      | _ => its
      end
  end.

(** Whether a view change refreshes, under the key [k], some widget of the
    list: one named [k] whose [update_on_change] is truthy. *)
Definition refreshes (k : string) (it : DashboardPlotItem.t) : bool :=
  match DashboardPlotItem.name it with
  | VStr s => String.eqb s k && truthy (DashboardPlotItem.update_on_change it)
  | _ => false
  end.

Definition refreshed (l : list DashboardPlotItem.t) (k : string) : bool :=
  existsb (refreshes k) l.

(** The body of the loop of [on_change_view]. *)
Definition refresh (item : DashboardPlotItem.t) : DashboardState.M unit :=
  (if truthy (DashboardPlotItem.update_on_change item)
   then d <- reads (fun self =>
                 DashboardState.load_plot_data self (DashboardPlotItem.name item)) ;;
        DashboardState.setitem_data (DashboardPlotItem.name item) d
   else mret tt)%dash.

(** ** Sample contexts *)

(** A view over four samples: labels cat, cat, cat, dog, and a confidence
    histogram with bin edges 0, 0.5 and 1.5. *)
Definition sample_view : View :=
  {| count_values := fun _ => Ok [(VStr "cat", 3); (VStr "dog", 1)];
     histogram_values := fun _ _ => Ok ([2; 5], [0%float; 0.5%float; 1.5%float], 0);
     values := fun _ => Ok [VInt 1; VInt 2; VInt 3; VInt 4] |}.

Definition sample_ctx (ps : gmap string pyval) (u : user_attr) (p : Panel)
  : ExecutionContext :=
  {| params := ps; user := u; view := sample_view;
     exec_snippet := fun _ _ => Ok {["data" := VDict {["x" := VList [VInt 1]]}]};
     panel := p; prompts := [] |}.

Definition fresh_panel : Panel := {| state := ∅; data := ∅ |}.

Definition editor : user_attr := UserAttr (Some {| dataset_permission := VStr "can_edit" |}).
Definition viewer : user_attr := UserAttr (Some {| dataset_permission := VStr "can_view" |}).

Definition pie_widget : DashboardPlotItem.t :=
  {| DashboardPlotItem.name := VStr "plot_7";
     DashboardPlotItem.type := pie;
     DashboardPlotItem.raw_params :=
       VDict (<["plot_type" := VStr "pie"]> {["field" := VStr "label"]});
     DashboardPlotItem.config := VDict ∅;
     DashboardPlotItem.layout := VDict ∅;
     DashboardPlotItem.use_code := VBool false;
     DashboardPlotItem.code := VNone;
     DashboardPlotItem.update_on_change := VBool true;
     DashboardPlotItem.x_field := VNone;
     DashboardPlotItem.y_field := VNone;
     DashboardPlotItem.field := VStr "label";
     DashboardPlotItem.bins := VInt 10 |}.

Definition histogram_widget : DashboardPlotItem.t :=
  {| DashboardPlotItem.name := VStr "plot_3";
     DashboardPlotItem.type := numeric_histogram;
     DashboardPlotItem.raw_params :=
       VDict (<["plot_type" := VStr "numeric_histogram"]> {["x_field" := VStr "confidence"]});
     DashboardPlotItem.config := VDict ∅;
     DashboardPlotItem.layout := VDict ∅;
     DashboardPlotItem.use_code := VBool false;
     DashboardPlotItem.code := VNone;
     DashboardPlotItem.update_on_change := VNone;
     DashboardPlotItem.x_field := VStr "confidence";
     DashboardPlotItem.y_field := VNone;
     DashboardPlotItem.field := VNone;
     DashboardPlotItem.bins := VInt 2 |}.

(** A panel that already shows the pie widget under ["plot_7"]. *)
Definition panel_with_pie : Panel :=
  {| state := {["items_config" :=
                 VDict {["plot_7" := DashboardPlotItem.to_dict pie_widget]}]};
     data := ∅ |}.

(** A panel with the pie widget and the histogram widget, and render data
    for the histogram from an earlier load. *)
Definition panel_with_two : Panel :=
  {| state := {["items_config" :=
                 VDict (<["plot_7" := DashboardPlotItem.to_dict pie_widget]>
                        {["plot_3" := DashboardPlotItem.to_dict histogram_widget]})]};
     data := {["items.plot_3" := VDict {["type" := VStr "bar"]}]} |}.

(** The result of the configure prompt for a new line chart: no name. *)
Definition line_request : gmap string pyval :=
  {["result" := VDict (<["plot_type" := VStr "line"]>
                      (<["x_field" := VStr "width"]>
                       {["y_field" := VStr "height"]}))]}.

Definition remove_request (k : string) : gmap string pyval := {["id" := VStr k]}.

(** ** Further vocabulary and samples *)

(** The keys a derived layout can carry. *)
Definition layout_keys : list string :=
  ["title"; "marker"; "xaxis"; "yaxis"; "bargap"; "bargroupgap"].

(** Every widget's display config is a dict, as [label] needs. *)
Definition config_is_dict (its : gmap string DashboardPlotItem.t) : Prop :=
  forall k it, its !! k = Some it -> exists d, DashboardPlotItem.config it = VDict d.

(** Whether a loop refreshes, under the key [k], some widget of the list
    that [sel] selects. *)
Definition selects (sel : DashboardPlotItem.t -> bool) (k : string)
    (it : DashboardPlotItem.t) : bool :=
  match DashboardPlotItem.name it with
  | VStr s => String.eqb s k && sel it
  | _ => false
  end.

(** The body shared by the loops of [load_all_plot_data] and
    [on_change_view], for the widgets [sel] selects. *)
Definition load_selected (sel : DashboardPlotItem.t -> bool)
    (item : DashboardPlotItem.t) : DashboardState.M unit :=
  (if sel item
   then d <- reads (fun self =>
                 DashboardState.load_plot_data self (DashboardPlotItem.name item)) ;;
        DashboardState.setitem_data (DashboardPlotItem.name item) d
   else mret tt)%dash.

(** A dataset whose calls describe the view they build. *)
Definition sample_dataset : Dataset :=
  {| match_values := fun f x => Ok (ViewHandle (VList [VStr "match_values"; f; x]));
     select := fun ids => Ok (ViewHandle (VList (VStr "select" :: ids))) |}.

Definition scatter_widget : DashboardPlotItem.t :=
  {| DashboardPlotItem.name := VStr "plot_5";
     DashboardPlotItem.type := scatter;
     DashboardPlotItem.raw_params :=
       VDict (<["plot_type" := VStr "scatter"]>
             (<["x_field" := VStr "width"]> {["y_field" := VStr "height"]}));
     DashboardPlotItem.config := VDict ∅;
     DashboardPlotItem.layout := VDict ∅;
     DashboardPlotItem.use_code := VBool false;
     DashboardPlotItem.code := VNone;
     DashboardPlotItem.update_on_change := VBool true;
     DashboardPlotItem.x_field := VStr "width";
     DashboardPlotItem.y_field := VStr "height";
     DashboardPlotItem.field := VNone;
     DashboardPlotItem.bins := VInt 10 |}.

(** A panel with the histogram widget and the scatter widget. *)
Definition panel_with_plots : Panel :=
  {| state := {["items_config" :=
                 VDict (<["plot_3" := DashboardPlotItem.to_dict histogram_widget]>
                        {["plot_5" := DashboardPlotItem.to_dict scatter_widget]})]};
     data := ∅ |}.

Definition sample_schema : list (string * Field) :=
  [("filepath", StringField); ("confidence", FloatField);
   ("detections", OtherField); ("detections.scores", ListField (Some FloatField));
   ("detections.labels", ListField (Some StringField)); ("tags", ListField None)].

(** How [render_dashboard] shows a widget: the entry added under the
    widget's name, with its label and its plotly view. *)
Definition renders_as (on_click_plot on_plot_select : callback)
    (item : DashboardPlotItem.t) (entry : pyval * DashboardPlotProperty.t) : Prop :=
  entry.1 = DashboardPlotItem.name item
  /\ DashboardPlotProperty.name entry.2 = DashboardPlotItem.name item
  /\ DashboardPlotItem.label item = Ok (DashboardPlotProperty.label entry.2)
  /\ DashboardPlotProperty.view entry.2
     = {| plotly_config := DashboardPlotItem.config item;
          plotly_layout := DashboardPlotItem.layout item;
          on_click := on_click_plot;
          on_selected := on_plot_select;
          x_data_source := DashboardPlotItem.x_field item;
          y_data_source := DashboardPlotItem.y_field item |}.

(** A context whose view counts two values 2^62 times each: the counts fit
    int64, their sum does not. *)
Definition overflowing_ctx : ExecutionContext :=
  {| params := ∅; user := NoUserAttr;
     view := {| count_values := fun _ => Ok [(VStr "cat", 2 ^ 62); (VStr "dog", 2 ^ 62)];
                histogram_values := fun _ _ => Ok ([], [], 0);
                values := fun _ => Ok [] |};
     exec_snippet := fun _ _ => Ok ∅;
     panel := fresh_panel; prompts := [] |}.

(** * Properties *)

#[local] Open Scope dash_scope.

(** ** Results and the state monad *)

Lemma rbind_Ok_inv {A B : Type} (r : result A) (k : A -> result B) (b : B) :
  rbind r k = Ok b -> exists a, r = Ok a /\ k a = Ok b.
Proof. destruct r as [a|e]; simpl; [eauto | discriminate]. Qed.

Lemma mbind_Ok_inv {A B : Type} (m : DashboardState.M A)
    (k : A -> DashboardState.M B) (s s' : DashboardState.t) (b : B) :
  mbind m k s = (Ok b, s') ->
  exists a s1, m s = (Ok a, s1) /\ k a s1 = (Ok b, s').
Proof.
  unfold mbind. destruct (m s) as [[a|e] s1]; [eauto | discriminate].
Qed.

(** ** Chart kinds *)

Lemma PlotType_of_string_value (t : PlotType) :
  PlotType_of_string (PlotType_value t) = Some t.
Proof. destruct t; reflexivity. Qed.

Lemma PlotType_of_string_Some (s : string) (t : PlotType) :
  PlotType_of_string s = Some t -> s = PlotType_value t.
Proof.
  unfold PlotType_of_string.
  repeat match goal with
         | |- context [String.eqb s ?k] =>
             destruct (String.eqb_spec s k) as [->|_]; [intros [= <-]; reflexivity|]
         end.
  discriminate.
Qed.

Lemma PlotType_call_value (t : PlotType) :
  PlotType_call (VStr (PlotType_value t)) = Ok t.
Proof. simpl. by rewrite PlotType_of_string_value. Qed.

Lemma PlotType_call_Ok (v : pyval) (t : PlotType) :
  PlotType_call v = Ok t -> v = VStr (PlotType_value t).
Proof.
  destruct v; simpl; try discriminate.
  destruct (PlotType_of_string s) as [t'|] eqn:E; [|discriminate].
  intros [= <-]. by rewrite (PlotType_of_string_Some _ _ E).
Qed.

Lemma PlotType_value_five (t : PlotType) : PlotType_value t ∈ five_values.
Proof. destruct t; unfold five_values; set_solver. Qed.

Lemma PlotType_call_outside (v : pyval) :
  (forall s, v = VStr s -> s ∉ five_values) -> PlotType_call v = Raise ValueError.
Proof.
  intros H. destruct v; simpl; try reflexivity.
  destruct (PlotType_of_string s) as [t|] eqn:E; [|reflexivity].
  apply PlotType_of_string_Some in E. subst s.
  exfalso. eapply H; [reflexivity | apply PlotType_value_five].
Qed.

(** ** Serialization of one widget *)

Lemma to_dict_map_lookups (item : DashboardPlotItem.t) :
  let d := DashboardPlotItem.to_dict_map item in
  d !! "name" = Some (DashboardPlotItem.name item) /\
  d !! "type" = Some (VStr (PlotType_value (DashboardPlotItem.type item))) /\
  d !! "config" = Some (DashboardPlotItem.config item) /\
  d !! "layout" = Some (DashboardPlotItem.layout item) /\
  d !! "raw_params" = Some (DashboardPlotItem.raw_params item) /\
  d !! "use_code" = Some (DashboardPlotItem.use_code item) /\
  d !! "code" = Some (DashboardPlotItem.code item) /\
  d !! "update_on_change" = Some (DashboardPlotItem.update_on_change item) /\
  d !! "x_field" = Some (DashboardPlotItem.x_field item) /\
  d !! "y_field" = Some (DashboardPlotItem.y_field item) /\
  d !! "field" = Some (DashboardPlotItem.field item) /\
  d !! "bins" = Some (DashboardPlotItem.bins item).
Proof.
  unfold DashboardPlotItem.to_dict_map. cbv zeta.
  repeat split; by simplify_map_eq.
Qed.

Lemma from_dict_to_dict (item : DashboardPlotItem.t) :
  DashboardPlotItem.from_dict (DashboardPlotItem.to_dict item) = Ok item.
Proof.
  pose proof (to_dict_map_lookups item) as H. cbv zeta in H.
  destruct H as (H1 & H2 & H3 & H4 & H5 & H6 & H7 & H8 & H9 & H10 & H11 & H12).
  unfold DashboardPlotItem.from_dict, DashboardPlotItem.to_dict, dict_get. simpl.
  rewrite H1, H2, H3, H4, H5, H6, H7, H8, H9, H10, H11, H12. simpl.
  unfold DashboardPlotItem.__init__. rewrite PlotType_call_value. simpl.
  by destruct item.
Qed.

(** ** Loading a stored collection *)

Lemma load_items_spec (d : gmap string pyval) :
  (decodable d -> DashboardState.load_items d = Ok (omap item_of d)) /\
  (forall its, DashboardState.load_items d = Ok its -> decodable d).
Proof.
  unfold DashboardState.load_items, decodable.
  apply (map_fold_weak_ind (fun r m =>
    (map_Forall (fun _ v => is_Some (item_of v)) m -> r = Ok (omap item_of m)) /\
    (forall its, r = Ok its -> map_Forall (fun _ v => is_Some (item_of v)) m))).
  - split; [intros _; by rewrite omap_empty | intros; apply map_Forall_empty].
  - intros i x m r Hi [IH1 IH2]. split.
    + intros [Hx Hm]%map_Forall_insert; [|done].
      rewrite (IH1 Hm). simpl. destruct Hx as [it Hit].
      unfold item_of in Hit.
      destruct (DashboardPlotItem.from_dict x) as [it'|] eqn:E; [|done].
      simpl. injection Hit as ->.
      f_equal. symmetry. apply omap_insert_Some. unfold item_of. by rewrite E.
    + intros its H. apply rbind_Ok_inv in H as (its0 & -> & H).
      apply rbind_Ok_inv in H as (it & Hit & _).
      apply map_Forall_insert; [done|]. split; [|by eapply IH2].
      unfold item_of. rewrite Hit. eauto.
Qed.

Lemma load_items_Ok (d : gmap string pyval) (its : gmap string DashboardPlotItem.t) :
  DashboardState.load_items d = Ok its -> its = omap item_of d.
Proof.
  intros H. pose proof (load_items_spec d) as [H1 H2].
  rewrite (H1 (H2 _ H)) in H. by injection H.
Qed.

Lemma load_items_to_dict (its : gmap string DashboardPlotItem.t) :
  DashboardState.load_items (DashboardPlotItem.to_dict <$> its) = Ok its.
Proof.
  pose proof (load_items_spec (DashboardPlotItem.to_dict <$> its)) as [H _].
  rewrite H.
  - f_equal. apply map_eq. intros k.
    rewrite lookup_omap, lookup_fmap.
    destruct (its !! k) as [it|]; simpl; [|done].
    unfold item_of. by rewrite from_dict_to_dict.
  - intros k v [it [<- _]]%lookup_fmap_Some.
    unfold item_of. rewrite from_dict_to_dict. eauto.
Qed.

(** What [DashboardState(ctx)] holds when the panel state carries a
    serialized collection. *)
Lemma init_serialized (c : ExecutionContext) (its : gmap string DashboardPlotItem.t) :
  state (panel c) !! "items_config" = Some (VDict (DashboardPlotItem.to_dict <$> its)) ->
  DashboardState.__init__ c = Ok (DashboardState.mk c its ∅).
Proof.
  intros H. unfold DashboardState.__init__, get_state. rewrite H. simpl.
  rewrite map_size_fmap.
  destruct (size its) eqn:E.
  - apply map_size_empty_inv in E. by subst.
  - simpl. by rewrite load_items_to_dict.
Qed.

Lemma init_ctx (c : ExecutionContext) (s : DashboardState.t) :
  DashboardState.__init__ c = Ok s ->
  DashboardState.ctx s = c /\ DashboardState._data s = ∅.
Proof.
  unfold DashboardState.__init__.
  destruct (truthy _).
  - intros H. apply rbind_Ok_inv in H as (d & _ & H).
    apply rbind_Ok_inv in H as (its & _ & H). by injection H as <-.
  - by intros [= <-].
Qed.

(** ** Writing to the panel *)

Lemma apply_state_items_config (self : DashboardState.t) :
  state (panel (DashboardState.ctx (DashboardState.apply_state self))) !! "items_config"
  = Some (DashboardState.items_as_dict self).
Proof. simpl. apply lookup_insert_eq. Qed.

Lemma apply_state_items (self : DashboardState.t) :
  DashboardState._items (DashboardState.apply_state self) = DashboardState._items self.
Proof. reflexivity. Qed.

#[local] Instance data_path_inj : Inj (=) (=) DashboardState.data_path.
Proof.
  intros k1 k2 H. unfold DashboardState.data_path in H.
  by simplify_eq/=.
Qed.

Lemma apply_data_state (self : DashboardState.t) :
  state (panel (DashboardState.ctx (DashboardState.apply_data self)))
  = state (panel (DashboardState.ctx self)).
Proof. reflexivity. Qed.

Lemma apply_data_lookup (self : DashboardState.t) (k : string) :
  data (panel (DashboardState.ctx (DashboardState.apply_data self)))
    !! DashboardState.data_path k
  = match DashboardState._data self !! k with
    | Some v => Some v
    | None => data (panel (DashboardState.ctx self)) !! DashboardState.data_path k
    end.
Proof.
  simpl. rewrite lookup_union, lookup_kmap by apply data_path_inj.
  destruct (DashboardState._data self !! k) as [v|].
  - by destruct (data (panel (DashboardState.ctx self)) !! DashboardState.data_path k).
  - by rewrite (left_id None _).
Qed.

Lemma apply_data_other (self : DashboardState.t) (path : string) :
  (forall k, k ∈ dom (DashboardState._data self) -> path <> DashboardState.data_path k) ->
  data (panel (DashboardState.ctx (DashboardState.apply_data self))) !! path
  = data (panel (DashboardState.ctx self)) !! path.
Proof.
  intros H. simpl. rewrite lookup_union.
  assert (kmap DashboardState.data_path (DashboardState._data self) !! path = None) as ->.
  { apply lookup_kmap_None; [apply data_path_inj|]. intros k ->.
    apply not_elem_of_dom. intros Hk. by eapply H. }
  by rewrite (left_id None _).
Qed.

(** ** The context manager *)

(** Whatever the body does, the [with] statement ends normally and leaves
    the serialization of the collection the body ended with. *)
Lemma with_spec (self : DashboardState.t) (body : DashboardState.M unit) :
  DashboardState.with_ self body
  = (Ok tt, DashboardState.apply_state (snd (body self))).
Proof.
  unfold DashboardState.with_, DashboardState.__enter__, DashboardState.__exit__.
  destruct (body self) as [[[]|e] s1]; reflexivity.
Qed.

(** ** Adding, editing and removing *)

(** From [run = (r, c')] to the context [c'] the run left, in the goal. *)
Ltac left_ctx H :=
  apply (f_equal snd) in H; cbn [snd] in H; rewrite <- H; clear H.

Lemma add_plot_items (item : DashboardPlotItem.t) (s : DashboardState.t) (k : string) :
  DashboardPlotItem.name item = VStr k ->
  DashboardState._items (snd (DashboardState.add_plot item s))
  = <[k := item]> (DashboardState._items s).
Proof.
  intros Hk.
  unfold DashboardState.add_plot, DashboardState.setitem_items,
    DashboardState.setitem_data, mbind, lift,
    reads, modify.
  rewrite Hk. simpl.
  by destruct (DashboardState.load_plot_data_for_item _ item).
Qed.

Lemma edit_plot_add_plot (item : DashboardPlotItem.t) :
  DashboardState.edit_plot item = DashboardState.add_plot item.
Proof. reflexivity. Qed.

Lemma plot_item_name (drawn : Z) (raw : pyval) (r p : gmap string pyval)
    (item : DashboardPlotItem.t) :
  CustomDashboard.plot_item drawn raw r p = Ok item ->
  DashboardPlotItem.name item
  = dict_get r "name" (VStr (DashboardState.get_next_item_id drawn)).
Proof.
  unfold CustomDashboard.plot_item, DashboardPlotItem.__init__.
  intros H. apply rbind_Ok_inv in H as (ty & _ & H). by injection H as <-.
Qed.

(** The collection the [with] block of [handle_plot_change] ends with. *)
Lemma plot_change_items (drawn : Z) (edit : bool) (raw : pyval)
    (r p : gmap string pyval) (s : DashboardState.t) :
  (forall v, r !! "name" = Some v -> exists k, v = VStr k) ->
  DashboardState._items
    (snd ((item <- lift (CustomDashboard.plot_item drawn raw r p) ;;
           if edit then DashboardState.edit_plot item
           else DashboardState.add_plot item) s))
  = stored_under (CustomDashboard.plot_item drawn raw r p) (DashboardState._items s).
Proof.
  intros Hname.
  unfold mbind, lift.
  destruct (CustomDashboard.plot_item drawn raw r p) as [item|e] eqn:E; [|done].
  pose proof (plot_item_name _ _ _ _ _ E) as Hn.
  assert (exists k, DashboardPlotItem.name item = VStr k) as [k Hk].
  { rewrite Hn. unfold dict_get. destruct (r !! "name") as [v|] eqn:Ev; simpl; eauto. }
  simpl. rewrite Hk.
  destruct edit; [rewrite edit_plot_add_plot|]; by apply add_plot_items.
Qed.

Lemma handle_plot_change_run (drawn : Z) (edit : bool) (c : ExecutionContext)
    (r p : gmap string pyval) (s0 : DashboardState.t) :
  dict_get (params c) "result" VNone = VDict r ->
  get_plotly_config_and_layout (VDict r) = Ok p ->
  DashboardState.__init__ c = Ok s0 ->
  CustomDashboard.handle_plot_change drawn edit c
  = (Ok tt,
     DashboardState.ctx (DashboardState.apply_state
       (snd ((item <- lift
                        (CustomDashboard.plot_item drawn (VDict r) r p) ;;
              if edit then DashboardState.edit_plot item
              else DashboardState.add_plot item) s0)))).
Proof.
  intros Hraw Hp Hs0. unfold CustomDashboard.handle_plot_change.
  rewrite Hraw, Hp, Hs0. simpl. by rewrite with_spec.
Qed.

Lemma handle_plot_change_Ok (drawn : Z) (edit : bool) (c c' : ExecutionContext) :
  CustomDashboard.handle_plot_change drawn edit c = (Ok tt, c') ->
  exists r p, dict_get (params c) "result" VNone = VDict r
              /\ get_plotly_config_and_layout (VDict r) = Ok p.
Proof.
  unfold CustomDashboard.handle_plot_change.
  destruct (dict_get (params c) "result" VNone) as [| | | | | |r] eqn:E;
    simpl; try discriminate.
  destruct (get_plotly_config_and_layout (VDict r)) as [p|e] eqn:Ep; simpl;
    [eauto | discriminate].
Qed.

Lemma remove_item_items (plot_id : pyval) (s : DashboardState.t) :
  DashboardState._items (snd (DashboardState.remove_item plot_id s))
  = match plot_id with
    | VStr k => delete k (DashboardState._items s)
    | _ => DashboardState._items s
    end.
Proof.
  unfold DashboardState.remove_item.
  destruct plot_id as [| | | |k| |]; try reflexivity.
  destruct (DashboardState._items s !! k) eqn:E; simpl; [done|].
  symmetry. by apply delete_id.
Qed.

Lemma on_remove_run (c : ExecutionContext) (s0 : DashboardState.t) :
  truthy (can_edit c) = true ->
  DashboardState.__init__ c = Ok s0 ->
  CustomDashboard.on_remove c
  = (Ok tt,
     DashboardState.ctx (DashboardState.apply_state
       (snd (DashboardState.remove_item (dict_get (params c) "id" VNone) s0)))).
Proof.
  intros Hp Hs0. unfold CustomDashboard.on_remove.
  rewrite Hp, Hs0. by rewrite with_spec.
Qed.

Lemma on_remove_not_permitted (c : ExecutionContext) :
  truthy (can_edit c) = false -> CustomDashboard.on_remove c = (Ok tt, c).
Proof. intros H. unfold CustomDashboard.on_remove. by rewrite H. Qed.

(** C1. After every add, edit or remove callback that completes, the panel
    state under ["items_config"] is the serialization, widget by widget, of
    the whole collection the callback left: the loaded collection with the
    configured widget stored under its name, or with the named widget taken
    out.  A remove that [can_edit] does not permit changes nothing. *)
Theorem C1_mutation_reserializes_collection
    (i : invocation) (c c' : ExecutionContext) (s0 : DashboardState.t) :
  DashboardState.__init__ c = Ok s0 ->
  str_name c = true ->
  invoke i c = (Ok tt, c') ->
  if mutates i c
  then state (panel c') !! "items_config"
       = Some (VDict (DashboardPlotItem.to_dict
                        <$> post_mutation i c (DashboardState._items s0)))
  else c' = c.
Proof.
  intros Hs0 Hname Hrun.
  assert (forall drawn edit,
    CustomDashboard.handle_plot_change drawn edit c = (Ok tt, c') ->
    state (panel c') !! "items_config"
    = Some (VDict (DashboardPlotItem.to_dict
                     <$> post_mutation (Add drawn) c (DashboardState._items s0))))
    as Hchange.
  { intros drawn edit H.
    destruct (handle_plot_change_Ok _ _ _ _ H) as (r & p & Hraw & Hp).
    rewrite (handle_plot_change_run _ _ _ _ _ _ Hraw Hp Hs0) in H.
    left_ctx H. rewrite apply_state_items_config.
    unfold DashboardState.items_as_dict, post_mutation.
    rewrite Hraw, Hp. do 3 f_equal.
    apply plot_change_items. intros v Hv.
    unfold str_name in Hname. rewrite Hraw, Hv in Hname.
    destruct v; try discriminate. eauto. }
  destruct i as [drawn|drawn|]; simpl in *.
  - by eapply Hchange.
  - by eapply Hchange.
  - destruct (truthy (can_edit c)) eqn:Hp.
    + rewrite (on_remove_run _ _ Hp Hs0) in Hrun. left_ctx Hrun.
      rewrite apply_state_items_config. unfold DashboardState.items_as_dict.
      by rewrite remove_item_items.
    + rewrite (on_remove_not_permitted _ Hp) in Hrun. by injection Hrun.
Qed.

Lemma keyed_by_name_empty : keyed_by_name ∅.
Proof. intros k it H. by rewrite lookup_empty in H. Qed.

Lemma keyed_by_name_insert (its : gmap string DashboardPlotItem.t)
    (k : string) (it : DashboardPlotItem.t) :
  DashboardPlotItem.name it = VStr k -> keyed_by_name its ->
  keyed_by_name (<[k := it]> its).
Proof.
  intros Hk H k' it' Hl. destruct (decide (k = k')) as [<-|Hne].
  - rewrite lookup_insert_eq in Hl. by injection Hl as <-.
  - rewrite lookup_insert_ne in Hl by done. by eapply H.
Qed.

Lemma keyed_by_name_delete (its : gmap string DashboardPlotItem.t) (k : string) :
  keyed_by_name its -> keyed_by_name (delete k its).
Proof. intros H k' it' Hl. apply lookup_delete_Some in Hl as [_ Hl]. by eapply H. Qed.

Lemma C1_witness :
  state (panel (snd (invoke (Add 7) (sample_ctx line_request NoUserAttr fresh_panel))))
    !! "items_config"
  = Some (VDict (DashboardPlotItem.to_dict
                   <$> post_mutation (Add 7)
                         (sample_ctx line_request NoUserAttr fresh_panel) ∅)).
Proof.
  apply (C1_mutation_reserializes_collection (Add 7)
           (sample_ctx line_request NoUserAttr fresh_panel) _
           (DashboardState.mk (sample_ctx line_request NoUserAttr fresh_panel) ∅ ∅)).
  - reflexivity.
  - reflexivity.
  - vm_compute. reflexivity.
Defined.

(** ** The chart kind *)

Lemma init_item_stored (c : ExecutionContext) (s : DashboardState.t)
    (k : string) (item : DashboardPlotItem.t) :
  DashboardState.__init__ c = Ok s ->
  DashboardState._items s !! k = Some item ->
  exists d v, state (panel c) !! "items_config" = Some (VDict d)
              /\ d !! k = Some v
              /\ DashboardPlotItem.from_dict v = Ok item.
Proof.
  unfold DashboardState.__init__, get_state. intros H Hk.
  destruct (state (panel c) !! "items_config") as [v0|] eqn:E; simpl in H.
  - destruct (truthy v0).
    + apply rbind_Ok_inv in H as (d & Hd & H).
      apply rbind_Ok_inv in H as (its & Hits & H).
      injection H as <-. simpl in Hk.
      destruct v0; try discriminate. injection Hd as ->.
      apply load_items_Ok in Hits. subst its.
      rewrite lookup_omap in Hk.
      destruct (d !! k) as [v|] eqn:Ev; [|discriminate]. simpl in Hk.
      exists d, v. repeat split; try done.
      unfold item_of in Hk.
      by destruct (DashboardPlotItem.from_dict v); simplify_eq.
    + injection H as <-. simpl in Hk. by rewrite lookup_empty in Hk.
  - injection H as <-. simpl in Hk. by rewrite lookup_empty in Hk.
Qed.

Lemma from_dict_Ok_type (v : pyval) (item : DashboardPlotItem.t) :
  DashboardPlotItem.from_dict v = Ok item ->
  exists d, v = VDict d
            /\ d !! "type" = Some (VStr (PlotType_value (DashboardPlotItem.type item))).
Proof.
  unfold DashboardPlotItem.from_dict, DashboardPlotItem.__init__. intros H.
  apply rbind_Ok_inv in H as (d & Hd & H).
  apply rbind_Ok_inv in H as (ty & Hty & H).
  destruct v; try discriminate. injection Hd as ->. injection H as <-. simpl.
  exists d. split; [done|].
  apply PlotType_call_Ok in Hty. unfold dict_get in Hty.
  by destruct (d !! "type"); simplify_eq/=.
Qed.

(** C8. The chart kind is confined to the enumeration: the constructor,
    called directly or through [from_dict], raises [ValueError] on a type
    that is none of the five values; so every widget a [DashboardState]
    holds has one of the five values as its type, and so had the stored
    entry it was loaded from. *)
Theorem C8_type_confined_to_enumeration :
  (forall name type config layout raw_params use_code code update_on_change
          x_field y_field field bins,
      (forall s, type = VStr s -> s ∉ five_values) ->
      DashboardPlotItem.__init__ name type config layout raw_params use_code code
        update_on_change x_field y_field field bins = Raise ValueError) /\
  (forall d,
      (forall s, dict_get d "type" VNone = VStr s -> s ∉ five_values) ->
      DashboardPlotItem.from_dict (VDict d) = Raise ValueError) /\
  (forall c s k item,
      DashboardState.__init__ c = Ok s ->
      DashboardState._items s !! k = Some item ->
      PlotType_value (DashboardPlotItem.type item) ∈ five_values /\
      exists d v, state (panel c) !! "items_config" = Some (VDict d)
                  /\ d !! k = Some (VDict v)
                  /\ v !! "type"
                     = Some (VStr (PlotType_value (DashboardPlotItem.type item)))).
Proof.
  split; [|split].
  - intros * H. unfold DashboardPlotItem.__init__.
    by rewrite (PlotType_call_outside _ H).
  - intros d H. unfold DashboardPlotItem.from_dict, DashboardPlotItem.__init__. simpl.
    by rewrite (PlotType_call_outside _ H).
  - intros c s k item Hs Hk. split; [apply PlotType_value_five|].
    destruct (init_item_stored _ _ _ _ Hs Hk) as (d & v & Hd & Hv & Hfrom).
    destruct (from_dict_Ok_type _ _ Hfrom) as (dv & -> & Hty).
    by exists d, dv.
Qed.

Lemma C8_witness :
  DashboardPlotItem.from_dict (VDict {["name" := VStr "plot_1"; "type" := VStr "heatmap"]})
  = Raise ValueError.
Proof.
  apply (proj1 (proj2 C8_type_confined_to_enumeration)).
  intros s H. vm_compute in H. injection H as <-.
  unfold five_values. intros Hin.
  repeat (apply elem_of_cons in Hin as [Hin|Hin]; [discriminate|]).
  by apply elem_of_nil in Hin.
Defined.

(** ** Serialization round trip *)

(** C3. Serialization round-trips: [from_dict] of [to_dict] gives back the
    widget, attribute by attribute, and a [DashboardState] built over a
    panel whose state was written by [apply_state] holds the collection that
    was written. *)
Theorem C3_serialization_round_trips :
  (forall item : DashboardPlotItem.t,
      DashboardPlotItem.from_dict (DashboardPlotItem.to_dict item) = Ok item) /\
  (forall self : DashboardState.t,
      DashboardState.__init__ (DashboardState.ctx (DashboardState.apply_state self))
      = Ok (DashboardState.mk (DashboardState.ctx (DashboardState.apply_state self))
                              (DashboardState._items self) ∅)).
Proof.
  split; [apply from_dict_to_dict|].
  intros self. apply init_serialized. apply apply_state_items_config.
Qed.

(** ** Configuration and payloads are kept apart *)

(** C7. What [apply_state] writes under ["items_config"] is the [to_dict] of
    each widget: it does not depend on the payloads held in [_data], and
    [apply_state] leaves the render data alone.  Payloads go through
    [apply_data], which leaves the panel state alone and writes render data
    only at the paths ["items.<name>"] of the payloads it holds. *)
Theorem C7_payloads_not_persisted (self : DashboardState.t) :
  state (panel (DashboardState.ctx (DashboardState.apply_state self)))
  = <["items_config" := VDict (DashboardPlotItem.to_dict <$> DashboardState._items self)]>
      (state (panel (DashboardState.ctx self))) /\
  (forall d, state (panel (DashboardState.ctx
                      (DashboardState.apply_state (DashboardState.set_data d self))))
             = state (panel (DashboardState.ctx (DashboardState.apply_state self)))) /\
  data (panel (DashboardState.ctx (DashboardState.apply_state self)))
  = data (panel (DashboardState.ctx self)) /\
  state (panel (DashboardState.ctx (DashboardState.apply_data self)))
  = state (panel (DashboardState.ctx self)) /\
  (forall k v, DashboardState._data self !! k = Some v ->
      data (panel (DashboardState.ctx (DashboardState.apply_data self)))
        !! ("items." +:+ k) = Some v) /\
  (forall path,
      data (panel (DashboardState.ctx (DashboardState.apply_data self))) !! path
      <> data (panel (DashboardState.ctx self)) !! path ->
      exists k, path = "items." +:+ k /\ k ∈ dom (DashboardState._data self)).
Proof.
  repeat split; try reflexivity.
  - intros k v Hk. pose proof (apply_data_lookup self k) as H.
    unfold DashboardState.data_path in H. by rewrite H, Hk.
  - intros path Hne.
    destruct (kmap (M2 := gmap string) DashboardState.data_path
                (DashboardState._data self) !! path) as [v|] eqn:E.
    + apply lookup_kmap_Some in E as (k & -> & Hk); [|apply data_path_inj].
      exists k. split; [done|]. apply elem_of_dom. eauto.
    + exfalso. apply Hne. simpl. rewrite lookup_union, E.
      by rewrite (left_id None _).
Qed.

Lemma C7_witness :
  data (panel (DashboardState.ctx (DashboardState.apply_data
     (DashboardState.mk (sample_ctx ∅ NoUserAttr fresh_panel) ∅
                        {["plot_7" := VDict {["type" := VStr "pie"]}]}))))
    !! ("items." +:+ "plot_7")
  = Some (VDict {["type" := VStr "pie"]}).
Proof.
  apply (proj1 (proj2 (proj2 (proj2 (proj2 (C7_payloads_not_persisted
     (DashboardState.mk (sample_ctx ∅ NoUserAttr fresh_panel) ∅
                        {["plot_7" := VDict {["type" := VStr "pie"]}]}))))))).
  reflexivity.
Defined.

(** ** Exceptions inside the [with] block *)







(** ** Permissions *)

Lemma py_eq_str_true (v : pyval) (s : string) :
  py_eq_str v s = true <-> v = VStr s.
Proof.
  destruct v; simpl; try (split; [discriminate | intros [=]]).
  rewrite String.eqb_eq. split; [by intros -> | by intros [= ->]].
Qed.

Lemma result_mapM_Ok_length {A B : Type} (f : A -> result B) (l : list A) (l' : list B) :
  result_mapM f l = Ok l' -> length l' = length l.
Proof.
  revert l'. induction l as [|x l IH]; intros l' H; simpl in *.
  - by injection H as <-.
  - apply rbind_Ok_inv in H as (y & _ & H).
    apply rbind_Ok_inv in H as (ys & Hys & H). injection H as <-.
    simpl. f_equal. by apply IH.
Qed.

(** C10. One predicate gates the three mutating entry points.  [can_edit]
    is [True] when the context has no [user] attribute; otherwise it is true
    exactly when [ctx.user] is a user whose [dataset_permission] is
    ["can_edit"].  [on_add] and [on_edit] prompt only when it holds,
    [on_remove] leaves the context alone when it does not, and
    [render_dashboard] hands its value to [allow_add], [allow_edit] and
    [allow_remove]. *)
Theorem C10_one_permission_gate (c : ExecutionContext) :
  (user c = NoUserAttr -> can_edit c = VBool true) /\
  (forall u, user c = UserAttr u ->
     (can_edit c = VBool true
      <-> exists usr, u = Some usr /\ dataset_permission usr = VStr "can_edit") /\
     (truthy (can_edit c) = true <-> can_edit c = VBool true)) /\
  CustomDashboard.on_add c
  = (Ok tt, if truthy (can_edit c)
            then prompt c CustomDashboard.configure_plot_uri cb_on_configure_plot None
            else c) /\
  (forall r c', CustomDashboard.on_edit c = (r, c') ->
     (truthy (can_edit c) = false -> c' = c) /\
     (c' <> c -> truthy (can_edit c) = true
                 /\ exists ps, c' = prompt c CustomDashboard.configure_plot_uri
                                      cb_on_edit_success (Some ps))) /\
  (truthy (can_edit c) = false -> CustomDashboard.on_remove c = (Ok tt, c)) /\
  (forall on_click_plot on_plot_select prop,
     CustomDashboard.render_dashboard c on_click_plot on_plot_select = Ok prop ->
     allow_add (dashboard_view prop) = can_edit c
     /\ allow_edit (dashboard_view prop) = can_edit c
     /\ allow_remove (dashboard_view prop) = can_edit c).
Proof.
  repeat apply conj.
  - intros H. unfold can_edit. by rewrite H.
  - intros u H. unfold can_edit. rewrite H. destruct u as [usr|]; split.
    + split.
      * intros [= Heq]. exists usr. split; [done|]. by apply py_eq_str_true.
      * intros (usr' & [= <-] & Hperm). f_equal. by apply py_eq_str_true.
    + simpl. split; [by intros -> | by intros [= ->]].
    + split; [discriminate | by intros (usr & [=] & _)].
    + simpl. split; discriminate.
  - unfold CustomDashboard.on_add. by destruct (truthy (can_edit c)).
  - intros r c' H. unfold CustomDashboard.on_edit in H.
    destruct (rbind _ _) as [[item|]|e];
      [| injection H as <- <-; split; [done | by intros []] |].
    + destruct (truthy (can_edit c)).
      * destruct (DashboardPlotItem.to_configure_plot_params item) as [ps|e].
        -- injection H as <- <-. split; [discriminate | eauto].
        -- injection H as <- <-. split; [discriminate | done].
      * injection H as <- <-. split; [done | by intros []].
    + injection H as <- <-. split; [done | by intros []].
  - apply on_remove_not_permitted.
  - intros cb1 cb2 prop H. unfold CustomDashboard.render_dashboard in H.
    apply rbind_Ok_inv in H as (s & _ & H).
    apply rbind_Ok_inv in H as (props & _ & H).
    by injection H as <-.
Qed.

Lemma C10_witness :
  CustomDashboard.on_remove (sample_ctx (remove_request "plot_7") viewer panel_with_pie)
  = (Ok tt, sample_ctx (remove_request "plot_7") viewer panel_with_pie).
Proof.
  apply (proj1 (proj2 (proj2 (proj2 (proj2
           (C10_one_permission_gate
              (sample_ctx (remove_request "plot_7") viewer panel_with_pie))))))).
  reflexivity.
Defined.

(** ** The numeric histogram *)

Lemma left_edges_length (edges : list float) :
  length (DashboardState.left_edges edges) = (length edges - 1)%nat.
Proof. unfold DashboardState.left_edges. rewrite length_take. lia. Qed.

Lemma widths_length (edges : list float) :
  length (DashboardState.widths edges) = (length edges - 1)%nat.
Proof.
  unfold DashboardState.widths.
  rewrite length_zip_with, length_drop, length_take. lia.
Qed.

Lemma left_edges_lookup (edges : list float) (i : nat) (e0 e1 : float) :
  edges !! i = Some e0 -> edges !! S i = Some e1 ->
  DashboardState.left_edges edges !! i = Some e0.
Proof.
  intros H0 H1. unfold DashboardState.left_edges.
  apply lookup_lt_Some in H1.
  rewrite lookup_take_lt by lia. done.
Qed.

Lemma widths_lookup (edges : list float) (i : nat) (e0 e1 : float) :
  edges !! i = Some e0 -> edges !! S i = Some e1 ->
  DashboardState.widths edges !! i = Some (PrimFloat.sub e1 e0).
Proof.
  intros H0 H1. unfold DashboardState.widths.
  rewrite lookup_zip_with, lookup_drop. simpl. rewrite H1. simpl.
  apply lookup_lt_Some in H1 as Hlt.
  rewrite lookup_take_lt by lia. by rewrite H0.
Qed.

(** C4. A numeric histogram with an [x_field] reshapes the host's
    [(counts, edges, other)]: ["y"] is the counts, ["x"] the left edge of
    each bin, ["width"] the difference of the bin's two edges, and ["type"]
    is ["bar"]; without an [x_field] the payload is the empty dict.  For a
    widget of that kind that does not use a snippet, this is the payload
    [load_plot_data_for_item] computes. *)
Theorem C4_numeric_histogram_payload
    (self : DashboardState.t) (item : DashboardPlotItem.t) :
  (truthy (DashboardPlotItem.x_field item) = false ->
   DashboardState.load_numeric_histogram_data self item = Ok (VDict ∅)) /\
  (forall counts edges other,
     truthy (DashboardPlotItem.x_field item) = true ->
     histogram_values (view (DashboardState.ctx self))
       (DashboardPlotItem.x_field item) (DashboardPlotItem.bins item)
     = Ok (counts, edges, other) ->
     exists d xs ws,
       DashboardState.load_numeric_histogram_data self item = Ok (VDict d)
       /\ d !! "y" = Some (VList (VInt <$> counts))
       /\ d !! "type" = Some (VStr "bar")
       /\ d !! "x" = Some (VList (VFloat <$> xs))
       /\ d !! "width" = Some (VList (VFloat <$> ws))
       /\ length xs = (length edges - 1)%nat
       /\ length ws = (length edges - 1)%nat
       /\ forall i e0 e1,
            edges !! i = Some e0 -> edges !! S i = Some e1 ->
            xs !! i = Some e0 /\ ws !! i = Some (PrimFloat.sub e1 e0)) /\
  (truthy (DashboardPlotItem.use_code item) = false ->
   DashboardPlotItem.type item = numeric_histogram ->
   DashboardState.load_plot_data_for_item self item
   = DashboardState.load_numeric_histogram_data self item).
Proof.
  repeat apply conj.
  - intros H. unfold DashboardState.load_numeric_histogram_data. by rewrite H.
  - intros counts edges other Hx Hh.
    exists (<["x" := VList (VFloat <$> DashboardState.left_edges edges)]>
            (<["y" := VList (VInt <$> counts)]>
            (<["type" := VStr "bar"]>
            (<["width" := VList (VFloat <$> DashboardState.widths edges)]> ∅)))),
           (DashboardState.left_edges edges), (DashboardState.widths edges).
    repeat apply conj; try by simplify_map_eq.
    + unfold DashboardState.load_numeric_histogram_data. by rewrite Hx, Hh.
    + apply left_edges_length.
    + apply widths_length.
    + intros i e0 e1 H0 H1. split;
        [by eapply left_edges_lookup | by apply widths_lookup].
  - intros Hc Ht. unfold DashboardState.load_plot_data_for_item. by rewrite Hc, Ht.
Qed.

Lemma C4_witness :
  let self := DashboardState.mk (sample_ctx ∅ NoUserAttr fresh_panel) ∅ ∅ in
  exists d xs ws,
    DashboardState.load_numeric_histogram_data self histogram_widget = Ok (VDict d)
    /\ d !! "y" = Some (VList (VInt <$> [2; 5]))
    /\ d !! "type" = Some (VStr "bar")
    /\ d !! "x" = Some (VList (VFloat <$> xs))
    /\ d !! "width" = Some (VList (VFloat <$> ws))
    /\ length xs = (length [0%float; 0.5%float; 1.5%float] - 1)%nat
    /\ length ws = (length [0%float; 0.5%float; 1.5%float] - 1)%nat
    /\ forall i e0 e1,
         [0%float; 0.5%float; 1.5%float] !! i = Some e0 ->
         [0%float; 0.5%float; 1.5%float] !! S i = Some e1 ->
         xs !! i = Some e0 /\ ws !! i = Some (PrimFloat.sub e1 e0).
Proof.
  intros self.
  apply (proj1 (proj2 (C4_numeric_histogram_payload self histogram_widget))
           [2; 5] [0%float; 0.5%float; 1.5%float] 0).
  - reflexivity.
  - reflexivity.
Defined.

Example numeric_histogram_sample :
  DashboardState.load_numeric_histogram_data
    (DashboardState.mk (sample_ctx ∅ NoUserAttr fresh_panel) ∅ ∅) histogram_widget
  = Ok (VDict (<["x" := VList [VFloat 0; VFloat 0.5]]>
              (<["y" := VList [VInt 2; VInt 5]]>
              (<["type" := VStr "bar"]>
              (<["width" := VList [VFloat 0.5; VFloat 1]]> ∅))))).
Proof. vm_compute. reflexivity. Qed.

(** ** Snippet-driven and field-driven loading *)

Lemma load_data_from_code_runs (self : DashboardState.t) (code : pyval)
    (plot_type : PlotType) (local_vars d : gmap string pyval) :
  truthy code = true ->
  exec_snippet (DashboardState.ctx self) (panel (DashboardState.ctx self)) code
  = Ok local_vars ->
  local_vars !! "data" = Some (VDict d) ->
  DashboardState.load_data_from_code self code plot_type
  = Ok (VDict (<["type" := VStr (PlotlyPlotType_value (get_plotly_plot_type plot_type))]> d)).
Proof.
  intros Hc He Hd. unfold DashboardState.load_data_from_code, dict_get.
  by rewrite Hc, He, Hd.
Qed.

(** C5. [use_code] alone picks the loading mode.  When it is true the
    payload is that of [load_data_from_code] on the stored snippet and the
    kind, whatever the field bindings: the [data] the snippet leaves, tagged
    with the plotly type of the kind.  When it is false the payload is that
    of the adapter of the widget's kind, whatever the snippet. *)
Theorem C5_use_code_selects_mode
    (self : DashboardState.t) (item : DashboardPlotItem.t) :
  (truthy (DashboardPlotItem.use_code item) = true ->
   DashboardState.load_plot_data_for_item self item
   = DashboardState.load_data_from_code self (DashboardPlotItem.code item)
       (DashboardPlotItem.type item)
   /\ forall name raw_params config layout x_field y_field field bins update_on_change,
        DashboardState.load_plot_data_for_item self
          {| DashboardPlotItem.name := name;
             DashboardPlotItem.type := DashboardPlotItem.type item;
             DashboardPlotItem.raw_params := raw_params;
             DashboardPlotItem.config := config;
             DashboardPlotItem.layout := layout;
             DashboardPlotItem.use_code := DashboardPlotItem.use_code item;
             DashboardPlotItem.code := DashboardPlotItem.code item;
             DashboardPlotItem.update_on_change := update_on_change;
             DashboardPlotItem.x_field := x_field;
             DashboardPlotItem.y_field := y_field;
             DashboardPlotItem.field := field;
             DashboardPlotItem.bins := bins |}
        = DashboardState.load_plot_data_for_item self item) /\
  (forall local_vars d,
     truthy (DashboardPlotItem.use_code item) = true ->
     truthy (DashboardPlotItem.code item) = true ->
     exec_snippet (DashboardState.ctx self) (panel (DashboardState.ctx self))
       (DashboardPlotItem.code item) = Ok local_vars ->
     local_vars !! "data" = Some (VDict d) ->
     DashboardState.load_plot_data_for_item self item
     = Ok (VDict (<["type" := VStr (PlotlyPlotType_value
                                      (get_plotly_plot_type (DashboardPlotItem.type item)))]>
                  d))) /\
  (truthy (DashboardPlotItem.use_code item) = false ->
   DashboardState.load_plot_data_for_item self item
   = match DashboardPlotItem.type item with
     | categorical_histogram => DashboardState.load_categorical_histogram_data self item
     | numeric_histogram => DashboardState.load_numeric_histogram_data self item
     | scatter => DashboardState.load_scatter_data self item
     | line => DashboardState.load_line_data self item
     | pie => DashboardState.load_pie_data self item
     end
   /\ forall code,
        DashboardState.load_plot_data_for_item self
          {| DashboardPlotItem.name := DashboardPlotItem.name item;
             DashboardPlotItem.type := DashboardPlotItem.type item;
             DashboardPlotItem.raw_params := DashboardPlotItem.raw_params item;
             DashboardPlotItem.config := DashboardPlotItem.config item;
             DashboardPlotItem.layout := DashboardPlotItem.layout item;
             DashboardPlotItem.use_code := DashboardPlotItem.use_code item;
             DashboardPlotItem.code := code;
             DashboardPlotItem.update_on_change := DashboardPlotItem.update_on_change item;
             DashboardPlotItem.x_field := DashboardPlotItem.x_field item;
             DashboardPlotItem.y_field := DashboardPlotItem.y_field item;
             DashboardPlotItem.field := DashboardPlotItem.field item;
             DashboardPlotItem.bins := DashboardPlotItem.bins item |}
        = DashboardState.load_plot_data_for_item self item).
Proof.
  split; [|split]; intros H.
  - split.
    + unfold DashboardState.load_plot_data_for_item. by rewrite H.
    + intros. unfold DashboardState.load_plot_data_for_item. simpl. by rewrite H.
  - intros d Hu Hc He Hd. unfold DashboardState.load_plot_data_for_item.
    rewrite Hu. by eapply load_data_from_code_runs.
  - split.
    + unfold DashboardState.load_plot_data_for_item. by rewrite H.
    + intros code. unfold DashboardState.load_plot_data_for_item. simpl. rewrite H.
      by destruct (DashboardPlotItem.type item).
Qed.

Lemma C5_witness :
  let self := DashboardState.mk (sample_ctx ∅ NoUserAttr fresh_panel) ∅ ∅ in
  DashboardState.load_plot_data_for_item self pie_widget
  = DashboardState.load_pie_data self pie_widget.
Proof.
  intros self.
  apply (proj1 (proj2 (proj2 (C5_use_code_selects_mode self pie_widget)) eq_refl)).
Defined.

(** ** Refreshing on a view change *)

Lemma load_plot_data_frame (s1 s2 : DashboardState.t) (plot_id : pyval) :
  DashboardState.ctx s1 = DashboardState.ctx s2 ->
  DashboardState._items s1 = DashboardState._items s2 ->
  DashboardState.load_plot_data s1 plot_id = DashboardState.load_plot_data s2 plot_id.
Proof.
  destruct s1 as [c1 its1 d1], s2 as [c2 its2 d2]. simpl. by intros -> ->.
Qed.

Lemma load_plot_data_item (s : DashboardState.t) (k : string) (item : DashboardPlotItem.t) :
  DashboardState._items s !! k = Some item ->
  DashboardState.load_plot_data s (VStr k)
  = DashboardState.load_plot_data_for_item s item.
Proof. intros H. unfold DashboardState.load_plot_data. simpl. by rewrite H. Qed.

Lemma refresh_Ok (item : DashboardPlotItem.t) (s s1 : DashboardState.t) :
  refresh item s = (Ok tt, s1) ->
  (truthy (DashboardPlotItem.update_on_change item) = false /\ s1 = s) \/
  (truthy (DashboardPlotItem.update_on_change item) = true /\
   exists k d, DashboardPlotItem.name item = VStr k
               /\ DashboardState.load_plot_data s (VStr k) = Ok d
               /\ s1 = DashboardState.set_data (<[k := d]> (DashboardState._data s)) s).
Proof.
  unfold refresh. destruct (truthy _) eqn:Hf.
  - intros H. right. split; [done|].
    apply mbind_Ok_inv in H as (d & s2 & Hd & H).
    unfold reads in Hd. injection Hd as Hd <-.
    unfold DashboardState.setitem_data in H.
    apply mbind_Ok_inv in H as (k & s3 & Hk & H).
    unfold lift in Hk. injection Hk as Hk <-.
    unfold modify in H. injection H as <-.
    destruct (DashboardPlotItem.name item) as [| | | |k0| |] eqn:Hn; try discriminate.
    injection Hk as ->. exists k, d. by rewrite <- Hn at 1.
  - intros [= <-]. by left.
Qed.

Lemma refresh_ctx (item : DashboardPlotItem.t) (s : DashboardState.t) :
  DashboardState.ctx (snd (refresh item s)) = DashboardState.ctx s.
Proof.
  unfold refresh. destruct (truthy _); [|done].
  unfold mbind, reads, DashboardState.setitem_data, lift, modify.
  destruct (DashboardState.load_plot_data s _); [|done].
  by destruct (dict_key _).
Qed.

Lemma for_each_refresh_ctx (l : list DashboardPlotItem.t) (s : DashboardState.t) :
  DashboardState.ctx (snd (DashboardState.for_each l refresh s)) = DashboardState.ctx s.
Proof.
  revert s. induction l as [|item l IH]; intros s; [done|].
  simpl. unfold mbind at 1.
  pose proof (refresh_ctx item s) as Hc.
  destruct (refresh item s) as [[[]|e] s1]; simpl in Hc; [|done].
  by rewrite IH.
Qed.

(** The loop of [on_change_view]: it touches only [_data], and there only
    the keys of the widgets it refreshes. *)
Lemma for_each_refresh (l : list DashboardPlotItem.t) (s s' : DashboardState.t) :
  DashboardState.for_each l refresh s = (Ok tt, s') ->
  DashboardState.ctx s' = DashboardState.ctx s /\
  DashboardState._items s' = DashboardState._items s /\
  forall k,
    if refreshed l k
    then exists d, DashboardState.load_plot_data s (VStr k) = Ok d
                   /\ DashboardState._data s' !! k = Some d
    else DashboardState._data s' !! k = DashboardState._data s !! k.
Proof.
  revert s. induction l as [|item l IH]; intros s H.
  - injection H as <-. by repeat split.
  - simpl in H. apply mbind_Ok_inv in H as ([] & s1 & H1 & H).
    destruct (IH _ H) as (Hc & Hi & Hd).
    apply refresh_Ok in H1 as [[Hf ->]|(Hf & k0 & d0 & Hn & Hl & ->)].
    + repeat split; try done. intros k. specialize (Hd k).
      unfold refreshed in *. simpl. unfold refreshes at 1. rewrite Hf.
      destruct (DashboardPlotItem.name item); try done.
      by rewrite andb_false_r.
    + simpl in *. repeat split; try done. intros k. specialize (Hd k).
      unfold refreshed in *. simpl. unfold refreshes at 1. rewrite Hn, Hf, andb_true_r.
      destruct (existsb (refreshes k) l) eqn:Hex.
      * rewrite orb_true_r. destruct Hd as (d & Hd1 & Hd2). exists d. split; [|done].
        rewrite <- Hd1. by apply load_plot_data_frame.
      * rewrite orb_false_r. destruct (String.eqb_spec k0 k) as [->|Hne].
        -- exists d0. split; [done|]. rewrite Hd. simpl. apply lookup_insert_eq.
        -- rewrite Hd. simpl. by apply lookup_insert_ne.
Qed.

Lemma elem_of_items (s : DashboardState.t) (it : DashboardPlotItem.t) :
  it ∈ DashboardState.items s <-> exists k, DashboardState._items s !! k = Some it.
Proof.
  unfold DashboardState.items. rewrite list_elem_of_fmap. split.
  - intros ([k it'] & -> & H). exists k. by apply elem_of_map_to_list.
  - intros [k H]. exists (k, it). split; [done|]. by apply elem_of_map_to_list.
Qed.

Lemma refreshed_true (l : list DashboardPlotItem.t) (k : string) :
  refreshed l k = true <->
  exists it, it ∈ l /\ DashboardPlotItem.name it = VStr k
             /\ truthy (DashboardPlotItem.update_on_change it) = true.
Proof.
  unfold refreshed. rewrite existsb_exists. split.
  - intros (it & Hin & Hr). exists it. split; [by apply list_elem_of_In|].
    unfold refreshes in Hr. destruct (DashboardPlotItem.name it); try discriminate.
    apply andb_true_iff in Hr as [->%String.eqb_eq Hr]. done.
  - intros (it & Hin & Hn & Hf). exists it. split; [by apply list_elem_of_In|].
    unfold refreshes. by rewrite Hn, Hf, String.eqb_refl.
Qed.

Lemma refreshed_keyed (s : DashboardState.t) (k : string) (item : DashboardPlotItem.t) :
  keyed_by_name (DashboardState._items s) ->
  DashboardState._items s !! k = Some item ->
  refreshed (DashboardState.items s) k
  = truthy (DashboardPlotItem.update_on_change item).
Proof.
  intros Hkey Hk. apply eq_true_iff_eq. rewrite refreshed_true. split.
  - intros (it & [k' Hk']%elem_of_items & Hn & Hf).
    rewrite (Hkey _ _ Hk') in Hn. injection Hn as ->. by simplify_eq.
  - intros Hf. exists item. split; [apply elem_of_items; eauto|].
    split; [by eapply Hkey | done].
Qed.

Lemma on_change_view_run (c : ExecutionContext) (s0 : DashboardState.t) :
  DashboardState.__init__ c = Ok s0 ->
  CustomDashboard.on_change_view c
  = let '(r, s) := (DashboardState.for_each (DashboardState.items s0) refresh ;;;
                    modify DashboardState.apply_data) s0 in
    (r, DashboardState.ctx s).
Proof. intros H. unfold CustomDashboard.on_change_view. by rewrite H. Qed.

(** C6. A view change never touches the panel state.  When it completes,
    every widget whose [update_on_change] is truthy has its payload
    recomputed and pushed to its render-data path, the render data of every
    other widget is as before, and so is every path that is not the path of
    a refreshed widget. *)
Theorem C6_view_change_refreshes_flagged_widgets
    (c c' : ExecutionContext) (s0 : DashboardState.t) :
  DashboardState.__init__ c = Ok s0 ->
  keyed_by_name (DashboardState._items s0) ->
  CustomDashboard.on_change_view c = (Ok tt, c') ->
  state (panel c') = state (panel c) /\
  (forall k item,
     DashboardState._items s0 !! k = Some item ->
     if truthy (DashboardPlotItem.update_on_change item)
     then exists payload,
            DashboardState.load_plot_data_for_item s0 item = Ok payload
            /\ data (panel c') !! ("items." +:+ k) = Some payload
     else data (panel c') !! ("items." +:+ k) = data (panel c) !! ("items." +:+ k)) /\
  (forall path,
     (forall k item,
        DashboardState._items s0 !! k = Some item ->
        truthy (DashboardPlotItem.update_on_change item) = true ->
        path <> "items." +:+ k) ->
     data (panel c') !! path = data (panel c) !! path).
Proof.
  intros Hs0 Hkey Hrun.
  rewrite (on_change_view_run _ _ Hs0) in Hrun.
  destruct (mbind _ _ s0) as [r s] eqn:E. injection Hrun as -> <-.
  apply mbind_Ok_inv in E as ([] & s1 & Hloop & Happly).
  unfold modify in Happly. injection Happly as <-.
  destruct (for_each_refresh _ _ _ Hloop) as (Hc & Hi & Hd).
  destruct (init_ctx _ _ Hs0) as [Hc0 Hd0].
  repeat apply conj.
  - by rewrite apply_data_state, Hc, Hc0.
  - intros k item Hk. specialize (Hd k).
    rewrite (refreshed_keyed _ _ _ Hkey Hk) in Hd.
    pose proof (apply_data_lookup s1 k) as Hl.
    unfold DashboardState.data_path in Hl. rewrite Hl.
    destruct (truthy (DashboardPlotItem.update_on_change item)).
    + destruct Hd as (d & Hd1 & Hd2). exists d.
      rewrite <- (load_plot_data_item _ _ _ Hk). by rewrite Hd2.
    + by rewrite Hd, Hd0, lookup_empty, Hc, Hc0.
  - intros path Hpath. rewrite apply_data_other; [by rewrite Hc, Hc0|].
    intros k Hk. specialize (Hd k).
    destruct (refreshed (DashboardState.items s0) k) eqn:Hr.
    + apply refreshed_true in Hr as (it & [k' Hk']%elem_of_items & Hn & Hf).
      rewrite (Hkey _ _ Hk') in Hn. injection Hn as ->.
      by eapply Hpath.
    + apply elem_of_dom in Hk as [v Hv].
      rewrite Hd, Hd0, lookup_empty in Hv. discriminate.
Qed.

Lemma C6_witness :
  let c := sample_ctx ∅ NoUserAttr panel_with_two in
  let s0 := DashboardState.mk c
              (<["plot_7" := pie_widget]> (<["plot_3" := histogram_widget]> ∅)) ∅ in
  let c' := snd (CustomDashboard.on_change_view c) in
  state (panel c') = state (panel c) /\
  (forall k item,
     DashboardState._items s0 !! k = Some item ->
     if truthy (DashboardPlotItem.update_on_change item)
     then exists payload,
            DashboardState.load_plot_data_for_item s0 item = Ok payload
            /\ data (panel c') !! ("items." +:+ k) = Some payload
     else data (panel c') !! ("items." +:+ k) = data (panel c) !! ("items." +:+ k)) /\
  (forall path,
     (forall k item,
        DashboardState._items s0 !! k = Some item ->
        truthy (DashboardPlotItem.update_on_change item) = true ->
        path <> "items." +:+ k) ->
     data (panel c') !! path = data (panel c) !! path).
Proof.
  intros c s0 c'.
  apply (C6_view_change_refreshes_flagged_widgets c c' s0).
  - vm_compute. reflexivity.
  - apply keyed_by_name_insert; [reflexivity|].
    apply keyed_by_name_insert; [reflexivity|].
    apply keyed_by_name_empty.
  - vm_compute. reflexivity.
Defined.

(** On the sample panel the view change recomputes the pie widget and keeps
    the histogram's earlier render data. *)
Example view_change_sample :
  let c' := snd (CustomDashboard.on_change_view (sample_ctx ∅ NoUserAttr panel_with_two)) in
  data (panel c') !! "items.plot_3" = Some (VDict {["type" := VStr "bar"]}) /\
  data (panel c') !! "items.plot_7"
  = Some (VDict (<["values" := VList [VFloat 75; VFloat 25]]>
                (<["labels" := VList [VStr "cat"; VStr "dog"]]>
                (<["type" := VStr "pie"]>
                (<["name" := VStr "Pie Chart"]> ∅))))).
Proof. vm_compute. split; reflexivity. Qed.

(** The panel state is left alone even when the view change raises. *)
Lemma on_change_view_state (c : ExecutionContext) :
  state (panel (snd (CustomDashboard.on_change_view c))) = state (panel c).
Proof.
  unfold CustomDashboard.on_change_view.
  destruct (DashboardState.__init__ c) as [s0|e] eqn:Hs0; [|done].
  destruct (init_ctx _ _ Hs0) as [Hc0 _].
  change (state (panel (snd (let '(r, s) :=
            (DashboardState.for_each (DashboardState.items s0) refresh ;;;
             modify DashboardState.apply_data) s0 in
            (r, DashboardState.ctx s)))) = state (panel c)).
  unfold mbind.
  pose proof (for_each_refresh_ctx (DashboardState.items s0) s0) as Hc.
  destruct (DashboardState.for_each _ refresh s0) as [[[]|e] s1]; simpl in *.
  - by rewrite Hc, Hc0.
  - by rewrite Hc, Hc0.
Qed.

(** ** Generated names *)

(** An add under a name the collection does not have yet grows it by one. *)
Lemma add_plot_fresh_name (item : DashboardPlotItem.t) (s : DashboardState.t) (k : string) :
  DashboardPlotItem.name item = VStr k ->
  DashboardState._items s !! k = None ->
  DashboardState.item_count (snd (DashboardState.add_plot item s))
  = S (DashboardState.item_count s).
Proof.
  intros Hk Hnone. unfold DashboardState.item_count.
  rewrite (add_plot_items _ _ _ Hk). by apply map_size_insert_None.
Qed.

(** An add under a name the collection has replaces the widget of that name. *)
Lemma add_plot_taken_name (item : DashboardPlotItem.t) (s : DashboardState.t) (k : string) :
  DashboardPlotItem.name item = VStr k ->
  is_Some (DashboardState._items s !! k) ->
  DashboardState.item_count (snd (DashboardState.add_plot item s))
  = DashboardState.item_count s
  /\ DashboardState._items (snd (DashboardState.add_plot item s)) !! k = Some item.
Proof.
  intros Hk Hsome. unfold DashboardState.item_count.
  rewrite (add_plot_items _ _ _ Hk). split.
  - by apply map_size_insert_Some.
  - apply lookup_insert_eq.
Qed.

Example get_next_item_id_bounds :
  DashboardState.get_next_item_id 0 = "plot_0"
  /\ DashboardState.get_next_item_id 1000 = "plot_1000".
Proof. split; reflexivity. Qed.

(** C2, at a failing input.  The panel shows the pie widget ["plot_7"]; the
    user adds a line chart, the prompt's result carries no name, and the
    draw is 7.  The generated name is ["plot_7"] again: the add completes,
    the collection still has one widget, and the pie widget is gone. *)
Theorem C2_generated_name_can_collide :
  let c := sample_ctx line_request NoUserAttr panel_with_pie in
  exists s0 c' s1,
    DashboardState.__init__ c = Ok s0
    /\ CustomDashboard.on_configure_plot 7 c = (Ok tt, c')
    /\ DashboardState.__init__ c' = Ok s1
    /\ dict_get (params c) "result" VNone
       = VDict (<["plot_type" := VStr "line"]>
               (<["x_field" := VStr "width"]> {["y_field" := VStr "height"]}))
    /\ DashboardState.get_next_item_id 7 = "plot_7"
    /\ DashboardState.item_count s0 = 1%nat
    /\ DashboardPlotItem.type <$> DashboardState._items s0 !! "plot_7" = Some pie
    /\ DashboardState.item_count s1 = 1%nat
    /\ DashboardPlotItem.type <$> DashboardState._items s1 !! "plot_7" = Some line.
Proof.
  intros c.
  exists (DashboardState.mk c {["plot_7" := pie_widget]} ∅),
         (snd (CustomDashboard.on_configure_plot 7 c)).
  eexists.
  split; [vm_compute; reflexivity|].
  split; [vm_compute; reflexivity|].
  split; [vm_compute; reflexivity|].
  repeat split; vm_compute; reflexivity.
Qed.

(** ** Widgets stay under their own name *)

(** The callbacks keep every widget under its own name, so the collections
    the panel writes, starting from an empty panel, are all keyed by name. *)
Lemma post_mutation_keyed (i : invocation) (c : ExecutionContext)
    (its : gmap string DashboardPlotItem.t) :
  keyed_by_name its -> keyed_by_name (post_mutation i c its).
Proof.
  intros H.
  assert (forall item, keyed_by_name (stored_under item its)) as Hstored.
  { intros [it|e]; simpl; [|done].
    destruct (DashboardPlotItem.name it) eqn:Hn; try done.
    by apply keyed_by_name_insert. }
  destruct i as [drawn|drawn|]; simpl.
  - destruct (dict_get (params c) "result" VNone); try done.
    by destruct (get_plotly_config_and_layout _).
  - destruct (dict_get (params c) "result" VNone); try done.
    by destruct (get_plotly_config_and_layout _).
  - destruct (dict_get (params c) "id" VNone); try done.
    by apply keyed_by_name_delete.
Qed.

Lemma init_fresh_panel (c : ExecutionContext) :
  state (panel c) !! "items_config" = None ->
  DashboardState.__init__ c = Ok (DashboardState.mk c ∅ ∅).
Proof. intros H. unfold DashboardState.__init__, get_state. by rewrite H. Qed.

(** On a panel that never stored a collection, a permitted remove of an
    unknown id writes the empty collection under ["items_config"]. *)
Example remove_unknown_on_fresh_panel :
  let c := sample_ctx (remove_request "plot_404") editor fresh_panel in
  fst (CustomDashboard.on_remove c) = Ok tt
  /\ state (panel c) !! "items_config" = None
  /\ state (panel (snd (CustomDashboard.on_remove c))) !! "items_config" = Some (VDict ∅).
Proof. vm_compute. repeat split; reflexivity. Qed.

(** A snippet-driven line widget on the sample context: the payload is the
    snippet's [data] with the plotly type added. *)
Example snippet_sample :
  DashboardState.load_data_from_code
    (DashboardState.mk (sample_ctx ∅ NoUserAttr fresh_panel) ∅ ∅)
    (VStr "data = {'x': [1]}") line
  = Ok (VDict (<["type" := VStr "line"]> {["x" := VList [VInt 1]]})).
Proof. vm_compute. reflexivity. Qed.

(** * Further properties *)

(** ** Layout derivation *)

Lemma layout_key_title : "title" ∈ layout_keys.
Proof. unfold layout_keys. set_solver. Qed.
Lemma layout_key_marker : "marker" ∈ layout_keys.
Proof. unfold layout_keys. set_solver. Qed.
Lemma layout_key_xaxis : "xaxis" ∈ layout_keys.
Proof. unfold layout_keys. set_solver. Qed.
Lemma layout_key_yaxis : "yaxis" ∈ layout_keys.
Proof. unfold layout_keys. set_solver. Qed.
Lemma layout_key_bargap : "bargap" ∈ layout_keys.
Proof. unfold layout_keys. set_solver. Qed.
Lemma layout_key_bargroupgap : "bargroupgap" ∈ layout_keys.
Proof. unfold layout_keys. set_solver. Qed.

(** X1. The derived config is always the empty dict, and the derived layout
    carries only the six layout keys: the plot title under ["title"] when it
    is truthy, the axes likewise, and the two bar gaps, both zero, exactly
    for a numeric histogram. *)
Theorem layout_derivation_shape (pc p : gmap string pyval) :
  get_plotly_config_and_layout (VDict pc) = Ok p ->
  p !! "config" = Some (VDict ∅) /\
  exists layout,
    p !! "layout" = Some (VDict layout)
    /\ (forall k v, layout !! k = Some v -> k ∈ layout_keys)
    /\ layout !! "title"
       = (if truthy (dict_get pc "plot_title" VNone)
          then Some (dict_get pc "plot_title" VNone) else None)
    /\ layout !! "xaxis"
       = (if truthy (dict_get pc "xaxis" VNone)
          then Some (dict_get pc "xaxis" VNone) else None)
    /\ layout !! "yaxis"
       = (if truthy (dict_get pc "yaxis" VNone)
          then Some (dict_get pc "yaxis" VNone) else None)
    /\ layout !! "bargap"
       = (if py_eq_str (dict_get pc "plot_type" VNone) "numeric_histogram"
          then Some (VInt 0) else None)
    /\ layout !! "bargroupgap"
       = (if py_eq_str (dict_get pc "plot_type" VNone) "numeric_histogram"
          then Some (VInt 0) else None).
Proof.
  unfold get_plotly_config_and_layout. simpl. intros H.
  apply rbind_Ok_inv in H as (layout2 & H2 & H). injection H as <-.
  split; [by simplify_map_eq|].
  eexists. split; [by simplify_map_eq|].
  assert (exists m, layout2 = (if truthy (dict_get pc "color" VNone)
                               then <["marker" := m]> else id)
                        (if truthy (dict_get pc "plot_title" VNone)
                         then <["title" := dict_get pc "plot_title" VNone]> ∅
                         else ∅)) as [m ->].
  { destruct (truthy (dict_get pc "color" VNone)).
    - apply rbind_Ok_inv in H2 as (color & _ & H2). injection H2 as <-. eauto.
    - injection H2 as <-. by exists VNone. }
  destruct (truthy (dict_get pc "plot_title" VNone)),
           (truthy (dict_get pc "color" VNone)),
           (truthy (dict_get pc "xaxis" VNone)),
           (truthy (dict_get pc "yaxis" VNone)),
           (py_eq_str (dict_get pc "plot_type" VNone) "numeric_histogram");
    simpl; (split; [|repeat split; by simplify_map_eq]);
    intros k v Hk;
    repeat (apply lookup_insert_Some in Hk as [[<- _]|[_ Hk]];
            [auto using layout_key_title, layout_key_marker, layout_key_xaxis,
               layout_key_yaxis, layout_key_bargap, layout_key_bargroupgap|]);
    by rewrite lookup_empty in Hk.
Qed.

Lemma layout_derivation_shape_witness :
  let pc : gmap string pyval :=
    <["plot_type" := VStr "numeric_histogram"]> {["plot_title" := VStr "Scores"]} in
  exists p layout,
    get_plotly_config_and_layout (VDict pc) = Ok p
    /\ p !! "layout" = Some (VDict layout)
    /\ layout !! "title" = Some (VStr "Scores")
    /\ layout !! "bargap" = Some (VInt 0).
Proof.
  intros pc.
  destruct (get_plotly_config_and_layout (VDict pc)) as [p|e] eqn:E;
    [|vm_compute in E; discriminate].
  destruct (layout_derivation_shape pc p E) as (_ & layout & Hl & _ & Ht & _ & _ & Hb & _).
  exists p, layout. repeat split; [done | exact Ht | exact Hb].
Defined.

(** X2. Deriving the layout fails only with [AttributeError], and exactly
    when the parameters are no dict or carry a truthy ["color"] that is no
    dict. *)
Theorem layout_derivation_errors (v : pyval) (e : exn) :
  get_plotly_config_and_layout v = Raise e <->
  e = AttributeError /\
  ((forall pc, v <> VDict pc) \/
   exists pc, v = VDict pc
              /\ truthy (dict_get pc "color" VNone) = true
              /\ forall cd, dict_get pc "color" VNone <> VDict cd).
Proof.
  unfold get_plotly_config_and_layout. split.
  - destruct v as [| | | | | |pc]; simpl; try (intros [= <-]; split; [done|by left]).
    destruct (truthy (dict_get pc "color" VNone)) eqn:Hc; simpl; [|discriminate].
    destruct (dict_get pc "color" VNone) eqn:Hcol; simpl; try discriminate;
      intros [= <-]; (split; [done|]); right; exists pc; rewrite Hcol;
      repeat split; done.
  - intros [-> [Hv|(pc & -> & Hc & Hcd)]].
    + destruct v; try done. by destruct (Hv d).
    + simpl. rewrite Hc.
      destruct (dict_get pc "color" VNone) eqn:Hcol; simpl; try done.
      by destruct (Hcd d).
Qed.

Lemma layout_derivation_errors_witness :
  get_plotly_config_and_layout (VDict {["color" := VStr "#ff0000"]}) = Raise AttributeError.
Proof.
  apply (proj2 (layout_derivation_errors (VDict {["color" := VStr "#ff0000"]})
                  AttributeError)).
  split; [reflexivity|]. right. exists {["color" := VStr "#ff0000"]}.
  split; [reflexivity|]. split; [reflexivity|].
  intros cd H. vm_compute in H. discriminate.
Defined.

(** ** Snippets *)

(** X3. Loading from a snippet never raises an [Exception]: it yields the
    empty payload, or a dict tagged with the plotly type of the kind; the
    only thing it lets through is a non-[Exception] raised by the snippet
    itself. *)
Theorem snippet_loading_outcomes (self : DashboardState.t) (code : pyval)
    (plot_type : PlotType) :
  match DashboardState.load_data_from_code self code plot_type with
  | Ok v =>
      v = VDict ∅ \/
      exists d, v = VDict d
                /\ d !! "type"
                   = Some (VStr (PlotlyPlotType_value (get_plotly_plot_type plot_type)))
  | Raise e =>
      is_Exception e = false
      /\ truthy code = true
      /\ exec_snippet (DashboardState.ctx self) (panel (DashboardState.ctx self)) code
         = Raise e
  end.
Proof.
  unfold DashboardState.load_data_from_code.
  destruct (truthy code); simpl; [|by left].
  destruct (exec_snippet _ _ code) as [local_vars|e] eqn:E.
  - destruct (dict_get local_vars "data" (VDict ∅)); try by left.
    right. eexists. split; [done|]. apply lookup_insert_eq.
  - destruct (is_Exception e) eqn:He; [by left | done].
Qed.

(** ** What can be loaded *)

(** X4. When [can_load_data] says no, loading gives the empty payload
    whatever the view holds, for a snippet-driven widget and for every
    field-driven kind but scatter; a scatter widget asks the view for its
    values all the same, and raises what the view raises. *)
Theorem cannot_load_gives_empty (self : DashboardState.t) (item : DashboardPlotItem.t) :
  DashboardState.can_load_data self item = false ->
  (truthy (DashboardPlotItem.use_code item) = true
   \/ DashboardPlotItem.type item <> scatter ->
   DashboardState.load_plot_data_for_item self item = Ok (VDict ∅)) /\
  (truthy (DashboardPlotItem.use_code item) = false ->
   DashboardPlotItem.type item = scatter ->
   forall e,
     values (view (DashboardState.ctx self)) (F (DashboardPlotItem.x_field item))
     = Raise e ->
     DashboardState.load_plot_data_for_item self item = Raise e).
Proof.
  unfold DashboardState.can_load_data, DashboardState.load_plot_data_for_item.
  destruct (truthy (DashboardPlotItem.code item)) eqn:Hcode; [discriminate|].
  intros Hcan. split.
  - intros Hcase. destruct (truthy (DashboardPlotItem.use_code item)) eqn:Hu.
    + unfold DashboardState.load_data_from_code. by rewrite Hcode.
    + destruct Hcase as [|Hty]; [discriminate|].
      destruct (DashboardPlotItem.type item); try done.
      * unfold DashboardState.load_categorical_histogram_data.
        by destruct (DashboardPlotItem.field item).
      * unfold DashboardState.load_numeric_histogram_data.
        by destruct (DashboardPlotItem.x_field item).
      * unfold DashboardState.load_line_data.
        by destruct (DashboardPlotItem.x_field item), (DashboardPlotItem.y_field item).
      * unfold DashboardState.load_pie_data.
        by destruct (DashboardPlotItem.field item).
  - intros Hu Hty e He. rewrite Hu, Hty.
    unfold DashboardState.load_scatter_data. by rewrite He.
Qed.

Lemma cannot_load_gives_empty_witness :
  let self := DashboardState.mk (sample_ctx ∅ NoUserAttr fresh_panel) ∅ ∅ in
  let item := DashboardPlotItem.mk (VStr "plot_preview") line VNone (VDict ∅) (VDict ∅)
                (VBool false) VNone VNone (VStr "width") VNone VNone (VInt 10) in
  DashboardState.load_plot_data_for_item self item = Ok (VDict ∅).
Proof.
  intros self item.
  apply (proj1 (cannot_load_gives_empty self item eq_refl)).
  right. discriminate.
Defined.

(** ** Building the state from the panel *)

Lemma from_dict_Raise (v : pyval) (e : exn) :
  DashboardPlotItem.from_dict v = Raise e -> e = AttributeError \/ e = ValueError.
Proof.
  unfold DashboardPlotItem.from_dict, DashboardPlotItem.__init__, PlotType_call.
  destruct v; simpl; try (intros [= <-]; by left).
  destruct (dict_get d "type" VNone); simpl; try (intros [= <-]; by right).
  destruct (PlotType_of_string s); simpl; [discriminate | intros [= <-]; by right].
Qed.

Lemma load_items_Raise (d : gmap string pyval) (e : exn) :
  DashboardState.load_items d = Raise e -> e = AttributeError \/ e = ValueError.
Proof.
  unfold DashboardState.load_items. revert e.
  apply (map_fold_weak_ind (fun r (_ : gmap string pyval) =>
    forall e, r = Raise e -> e = AttributeError \/ e = ValueError)).
  - discriminate.
  - intros i x m r _ IH e. destruct r as [its|e']; simpl.
    + destruct (DashboardPlotItem.from_dict x) eqn:E; simpl; [discriminate|].
      intros [= <-]. by eapply from_dict_Raise.
    + intros [= <-]. by apply IH.
Qed.

(** X5. What [DashboardState(ctx)] makes of the panel state.  A falsy or
    unset ["items_config"] is the empty collection; a truthy value that is no
    dict is an [AttributeError]; a dict loads exactly when every entry
    decodes, to the decoded entries under their keys, and otherwise raises
    the [AttributeError] or [ValueError] of an entry.  The payload store
    always starts empty. *)
Theorem state_construction (c : ExecutionContext) :
  let v := get_state (panel c) "items_config" in
  (truthy v = false -> DashboardState.__init__ c = Ok (DashboardState.mk c ∅ ∅)) /\
  (truthy v = true -> (forall d, v <> VDict d) ->
   DashboardState.__init__ c = Raise AttributeError) /\
  (forall d, v = VDict d -> decodable d ->
   DashboardState.__init__ c = Ok (DashboardState.mk c (omap item_of d) ∅)) /\
  (forall d, v = VDict d -> truthy v = true -> ~ decodable d ->
   DashboardState.__init__ c = Raise AttributeError
   \/ DashboardState.__init__ c = Raise ValueError).
Proof.
  cbv zeta. unfold DashboardState.__init__. repeat apply conj.
  - by intros ->.
  - intros -> Hnd. destruct (get_state (panel c) "items_config"); try done.
    by destruct (Hnd d).
  - intros d -> Hdec. simpl.
    destruct (size d) eqn:Hs.
    + apply map_size_empty_inv in Hs. subst d. by rewrite omap_empty.
    + simpl. by rewrite (proj1 (load_items_spec d) Hdec).
  - intros d -> -> Hnd. simpl.
    destruct (DashboardState.load_items d) as [its|e] eqn:E.
    + destruct Hnd. by eapply load_items_spec.
    + simpl. destruct (load_items_Raise _ _ E) as [-> | ->]; eauto.
Qed.

Lemma state_construction_witness :
  DashboardState.__init__
    (sample_ctx ∅ NoUserAttr {| state := {["items_config" := VStr "stale"]}; data := ∅ |})
  = Raise AttributeError.
Proof.
  apply (proj1 (proj2 (state_construction
    (sample_ctx ∅ NoUserAttr {| state := {["items_config" := VStr "stale"]}; data := ∅ |})))).
  - reflexivity.
  - intros d H. vm_compute in H. discriminate.
Defined.

(** ** What a plot change leaves in the panel *)

Lemma load_plot_data_for_item_frame (s1 s2 : DashboardState.t) (item : DashboardPlotItem.t) :
  DashboardState.ctx s1 = DashboardState.ctx s2 ->
  DashboardState.load_plot_data_for_item s1 item
  = DashboardState.load_plot_data_for_item s2 item.
Proof. destruct s1, s2. simpl. by intros ->. Qed.

(** [add_plot] step by step, for a widget named by a [str]. *)
Lemma add_plot_run (item : DashboardPlotItem.t) (s : DashboardState.t) (k : string) :
  DashboardPlotItem.name item = VStr k ->
  DashboardState.add_plot item s
  = match DashboardState.load_plot_data_for_item s item with
    | Ok d =>
        (Ok tt,
         DashboardState.apply_data
           (DashboardState.set_data (<[k := d]> (DashboardState._data s))
              (DashboardState.set_items (<[k := item]> (DashboardState._items s)) s)))
    | Raise e =>
        (Raise e, DashboardState.set_items (<[k := item]> (DashboardState._items s)) s)
    end.
Proof.
  intros Hk.
  unfold DashboardState.add_plot, DashboardState.setitem_items,
    DashboardState.setitem_data, mbind, lift, reads, modify.
  rewrite Hk. simpl.
  rewrite (load_plot_data_for_item_frame _ s item) by done.
  by destruct (DashboardState.load_plot_data_for_item s item).
Qed.

Lemma plot_change_body_run (drawn : Z) (edit : bool) (raw : pyval)
    (r p : gmap string pyval) (s : DashboardState.t)
    (item : DashboardPlotItem.t) (k : string) :
  CustomDashboard.plot_item drawn raw r p = Ok item ->
  DashboardPlotItem.name item = VStr k ->
  (item <- lift (CustomDashboard.plot_item drawn raw r p) ;;
   if edit then DashboardState.edit_plot item else DashboardState.add_plot item) s
  = DashboardState.add_plot item s.
Proof.
  intros Hitem Hk. unfold mbind, lift. rewrite Hitem.
  by destruct edit.
Qed.

(** The widget the sample line request configures. *)
Lemma line_request_item (drawn : Z) (u : user_attr) (pn : Panel) :
  let c := sample_ctx line_request u pn in
  exists r p item,
    dict_get (params c) "result" VNone = VDict r
    /\ get_plotly_config_and_layout (VDict r) = Ok p
    /\ CustomDashboard.plot_item drawn (VDict r) r p = Ok item
    /\ DashboardPlotItem.name item = VStr (DashboardState.get_next_item_id drawn)
    /\ DashboardPlotItem.type item = line.
Proof.
  intros c.
  set (r := (<["plot_type" := VStr "line"]>
              (<["x_field" := VStr "width"]> {["y_field" := VStr "height"]})
             : gmap string pyval)).
  exists r, (<["layout" := VDict ∅]> {["config" := VDict ∅]}),
    {| DashboardPlotItem.name := VStr (DashboardState.get_next_item_id drawn);
       DashboardPlotItem.type := line;
       DashboardPlotItem.raw_params := VDict r;
       DashboardPlotItem.config := VDict ∅;
       DashboardPlotItem.layout := VDict ∅;
       DashboardPlotItem.use_code := VBool false;
       DashboardPlotItem.code := VNone;
       DashboardPlotItem.update_on_change := VNone;
       DashboardPlotItem.x_field := VStr "width";
       DashboardPlotItem.y_field := VStr "height";
       DashboardPlotItem.field := VNone;
       DashboardPlotItem.bins := VInt 10 |}.
  split; [reflexivity|]. split; [vm_compute; reflexivity|].
  split; [|split; reflexivity].
  unfold CustomDashboard.plot_item, DashboardPlotItem.__init__, dict_get.
  subst r. by simplify_map_eq.
Qed.



(** ** Persist and reload *)

Lemma mutation_items_config (i : invocation) (c c' : ExecutionContext)
    (s0 : DashboardState.t) :
  DashboardState.__init__ c = Ok s0 ->
  str_name c = true ->
  invoke i c = (Ok tt, c') ->
  mutates i c = true ->
  state (panel c') !! "items_config"
  = Some (VDict (DashboardPlotItem.to_dict
                   <$> post_mutation i c (DashboardState._items s0))).
Proof.
  intros Hs0 Hname Hrun Hmut.
  assert (forall drawn edit,
    CustomDashboard.handle_plot_change drawn edit c = (Ok tt, c') ->
    state (panel c') !! "items_config"
    = Some (VDict (DashboardPlotItem.to_dict
                     <$> post_mutation (Add drawn) c (DashboardState._items s0))))
    as Hchange.
  { intros drawn edit H.
    destruct (handle_plot_change_Ok _ _ _ _ H) as (r & p & Hraw & Hp).
    rewrite (handle_plot_change_run _ _ _ _ _ _ Hraw Hp Hs0) in H.
    left_ctx H. rewrite apply_state_items_config.
    unfold DashboardState.items_as_dict, post_mutation.
    rewrite Hraw, Hp. do 3 f_equal.
    apply plot_change_items. intros v Hv.
    unfold str_name in Hname. rewrite Hraw, Hv in Hname.
    destruct v; try discriminate. eauto. }
  destruct i as [drawn|drawn|]; simpl in *.
  - by eapply Hchange.
  - by eapply Hchange.
  - rewrite (on_remove_run _ _ Hmut Hs0) in Hrun. left_ctx Hrun.
    rewrite apply_state_items_config. unfold DashboardState.items_as_dict.
    by rewrite remove_item_items.
Qed.

(** X7. Callbacks compose through the panel: after an add, an edit or a
    permitted remove that returns normally, the next [DashboardState(ctx)]
    loads without raising, and loads exactly the collection the callback
    left; if every widget sat under its own name before, it does after. *)
Theorem mutation_then_reload (i : invocation) (c c' : ExecutionContext)
    (s0 : DashboardState.t) :
  DashboardState.__init__ c = Ok s0 ->
  str_name c = true ->
  mutates i c = true ->
  invoke i c = (Ok tt, c') ->
  DashboardState.__init__ c'
  = Ok (DashboardState.mk c' (post_mutation i c (DashboardState._items s0)) ∅)
  /\ (keyed_by_name (DashboardState._items s0) ->
      keyed_by_name (post_mutation i c (DashboardState._items s0))).
Proof.
  intros Hs0 Hname Hmut Hrun. split.
  - apply init_serialized. by eapply mutation_items_config.
  - apply post_mutation_keyed.
Qed.

Lemma mutation_then_reload_witness :
  let c := sample_ctx (remove_request "plot_7") editor panel_with_two in
  let s0 := DashboardState.mk c
              (<["plot_7" := pie_widget]> {["plot_3" := histogram_widget]}) ∅ in
  let c' := snd (invoke Remove c) in
  DashboardState.__init__ c'
  = Ok (DashboardState.mk c' (post_mutation Remove c (DashboardState._items s0)) ∅)
  /\ (keyed_by_name (DashboardState._items s0) ->
      keyed_by_name (post_mutation Remove c (DashboardState._items s0))).
Proof.
  intros c s0 c'.
  apply (mutation_then_reload Remove c c' s0).
  - vm_compute. reflexivity.
  - reflexivity.
  - reflexivity.
  - vm_compute. reflexivity.
Defined.

(** ** Removing *)

(** X8. A permitted remove of a widget that is there takes exactly that
    widget out: the count drops by one and every other widget is as it was.
    The render data is not cleared: whatever was pushed for the removed
    widget stays in the panel. *)
Theorem remove_takes_one_out (c : ExecutionContext) (s0 : DashboardState.t)
    (k : string) (item : DashboardPlotItem.t) :
  DashboardState.__init__ c = Ok s0 ->
  truthy (can_edit c) = true ->
  dict_get (params c) "id" VNone = VStr k ->
  DashboardState._items s0 !! k = Some item ->
  exists c' s1,
    CustomDashboard.on_remove c = (Ok tt, c')
    /\ DashboardState.__init__ c' = Ok s1
    /\ DashboardState._items s1 !! k = None
    /\ (forall k', k' <> k ->
          DashboardState._items s1 !! k' = DashboardState._items s0 !! k')
    /\ S (DashboardState.item_count s1) = DashboardState.item_count s0
    /\ data (panel c') = data (panel c).
Proof.
  intros Hs0 Hp Hid Hk.
  destruct (init_ctx _ _ Hs0) as [Hc0 _].
  eexists. exists (DashboardState.mk
    (DashboardState.ctx (DashboardState.apply_state
       (snd (DashboardState.remove_item (VStr k) s0))))
    (delete k (DashboardState._items s0)) ∅).
  split; [by apply on_remove_run|]. rewrite Hid.
  split.
  { apply init_serialized. rewrite apply_state_items_config.
    unfold DashboardState.items_as_dict. by rewrite remove_item_items. }
  simpl. repeat split.
  - apply lookup_delete_eq.
  - intros k' Hne. by apply lookup_delete_ne.
  - unfold DashboardState.item_count. simpl.
    rewrite map_size_delete, Hk.
    assert (size (DashboardState._items s0) <> 0%nat); [|lia].
    intros Hz. apply map_size_empty_inv in Hz. by rewrite Hz, lookup_empty in Hk.
  - rewrite Hk. simpl. by rewrite Hc0.
Qed.

Lemma remove_takes_one_out_witness :
  let c := sample_ctx (remove_request "plot_3") editor panel_with_two in
  let s0 := DashboardState.mk c
              (<["plot_7" := pie_widget]> {["plot_3" := histogram_widget]}) ∅ in
  exists c' s1,
    CustomDashboard.on_remove c = (Ok tt, c')
    /\ DashboardState.__init__ c' = Ok s1
    /\ DashboardState._items s1 !! "plot_3" = None
    /\ (forall k', k' <> "plot_3" ->
          DashboardState._items s1 !! k' = DashboardState._items s0 !! k')
    /\ S (DashboardState.item_count s1) = DashboardState.item_count s0
    /\ data (panel c') = data (panel c).
Proof.
  intros c s0.
  apply (remove_takes_one_out c s0 "plot_3" histogram_widget).
  - vm_compute. reflexivity.
  - reflexivity.
  - reflexivity.
  - reflexivity.
Defined.

(** ** Composing plot changes and removes *)

Lemma add_plot_user (item : DashboardPlotItem.t) (s : DashboardState.t) (k : string) :
  DashboardPlotItem.name item = VStr k ->
  user (DashboardState.ctx (snd (DashboardState.add_plot item s)))
  = user (DashboardState.ctx s).
Proof.
  intros Hk. rewrite (add_plot_run _ _ _ Hk).
  by destruct (DashboardState.load_plot_data_for_item s item).
Qed.

(** The context a completed plot change leaves: the panel holds the
    serialization of the collection with the widget stored, and the user is
    who it was. *)
Lemma plot_change_ctx (drawn : Z) (edit : bool) (c : ExecutionContext)
    (r p : gmap string pyval) (s0 : DashboardState.t)
    (item : DashboardPlotItem.t) (k : string) :
  dict_get (params c) "result" VNone = VDict r ->
  get_plotly_config_and_layout (VDict r) = Ok p ->
  DashboardState.__init__ c = Ok s0 ->
  CustomDashboard.plot_item drawn (VDict r) r p = Ok item ->
  DashboardPlotItem.name item = VStr k ->
  exists c',
    CustomDashboard.handle_plot_change drawn edit c = (Ok tt, c')
    /\ state (panel c') !! "items_config"
       = Some (VDict (DashboardPlotItem.to_dict <$> <[k := item]> (DashboardState._items s0)))
    /\ user c' = user c.
Proof.
  intros Hraw Hp Hs0 Hitem Hk.
  eexists. split; [by apply handle_plot_change_run|].
  rewrite (plot_change_body_run _ _ _ _ _ _ _ _ Hitem Hk).
  split.
  - rewrite apply_state_items_config. unfold DashboardState.items_as_dict.
    by rewrite (add_plot_items _ _ _ Hk).
  - destruct (init_ctx _ _ Hs0) as [Hc0 _].
    change (user (DashboardState.ctx (snd (DashboardState.add_plot item s0))) = user c).
    by rewrite (add_plot_user _ _ _ Hk), Hc0.
Qed.

(** X9. A plot change stores the widget built from the result under its
    name, whichever of [on_configure_plot] and [on_edit_success] ran: a
    widget of that name is replaced wholesale and the count stays, a new
    name grows the collection by one; every other widget is as it was. *)
Theorem plot_change_stores_under_name (drawn : Z) (edit : bool) (c : ExecutionContext)
    (r p : gmap string pyval) (s0 : DashboardState.t)
    (item : DashboardPlotItem.t) (k : string) :
  dict_get (params c) "result" VNone = VDict r ->
  get_plotly_config_and_layout (VDict r) = Ok p ->
  DashboardState.__init__ c = Ok s0 ->
  CustomDashboard.plot_item drawn (VDict r) r p = Ok item ->
  DashboardPlotItem.name item = VStr k ->
  exists c' s1,
    CustomDashboard.handle_plot_change drawn edit c = (Ok tt, c')
    /\ DashboardState.__init__ c' = Ok s1
    /\ DashboardState._items s1 !! k = Some item
    /\ (forall k', k' <> k ->
          DashboardState._items s1 !! k' = DashboardState._items s0 !! k')
    /\ DashboardState.item_count s1
       = match DashboardState._items s0 !! k with
         | Some _ => DashboardState.item_count s0
         | None => S (DashboardState.item_count s0)
         end.
Proof.
  intros Hraw Hp Hs0 Hitem Hk.
  destruct (plot_change_ctx drawn edit c r p s0 item k Hraw Hp Hs0 Hitem Hk)
    as (c' & Hrun & Hstate & _).
  exists c', (DashboardState.mk c' (<[k := item]> (DashboardState._items s0)) ∅).
  split; [done|]. split; [by apply init_serialized|].
  simpl. repeat split.
  - apply lookup_insert_eq.
  - intros k' Hne. by apply lookup_insert_ne.
  - unfold DashboardState.item_count. simpl. rewrite map_size_insert.
    by destruct (DashboardState._items s0 !! k).
Qed.

Lemma plot_change_stores_under_name_witness :
  let c := sample_ctx line_request NoUserAttr panel_with_pie in
  exists item c' s1,
    CustomDashboard.handle_plot_change 7 true c = (Ok tt, c')
    /\ DashboardState.__init__ c' = Ok s1
    /\ DashboardState._items s1 !! "plot_7" = Some item
    /\ DashboardPlotItem.type item = line
    /\ DashboardState.item_count s1 = 1%nat.
Proof.
  intros c.
  destruct (line_request_item 7 NoUserAttr panel_with_pie)
    as (r & p & item & Hraw & Hp & Hitem & Hk & Hty).
  destruct (plot_change_stores_under_name 7 true c r p
              (DashboardState.mk c {["plot_7" := pie_widget]} ∅) item "plot_7"
              Hraw Hp)
    as (c' & s1 & Hrun & Hs1 & Hl & _ & Hcount).
  - vm_compute. reflexivity.
  - exact Hitem.
  - exact Hk.
  - exists item, c', s1. repeat split; try done.
Defined.

(** X10. Adding a widget under a new name and then removing that name gives
    back the collection there was: the panel state ends with the
    serialization of the original collection. *)
Theorem add_then_remove (drawn : Z) (edit : bool) (c : ExecutionContext)
    (r p : gmap string pyval) (s0 : DashboardState.t)
    (item : DashboardPlotItem.t) (k : string) :
  dict_get (params c) "result" VNone = VDict r ->
  get_plotly_config_and_layout (VDict r) = Ok p ->
  DashboardState.__init__ c = Ok s0 ->
  CustomDashboard.plot_item drawn (VDict r) r p = Ok item ->
  DashboardPlotItem.name item = VStr k ->
  DashboardState._items s0 !! k = None ->
  truthy (can_edit c) = true ->
  exists c1 c2,
    CustomDashboard.handle_plot_change drawn edit c = (Ok tt, c1)
    /\ CustomDashboard.on_remove (with_params c1 {["id" := VStr k]}) = (Ok tt, c2)
    /\ state (panel c2) !! "items_config"
       = Some (VDict (DashboardPlotItem.to_dict <$> DashboardState._items s0))
    /\ DashboardState.__init__ c2 = Ok (DashboardState.mk c2 (DashboardState._items s0) ∅).
Proof.
  intros Hraw Hp Hs0 Hitem Hk Hfresh Hperm.
  destruct (plot_change_ctx drawn edit c r p s0 item k Hraw Hp Hs0 Hitem Hk)
    as (c1 & Hrun & Hstate & Huser).
  exists c1. eexists. split; [done|].
  assert (DashboardState.__init__ (with_params c1 {["id" := VStr k]})
          = Ok (DashboardState.mk (with_params c1 {["id" := VStr k]})
                  (<[k := item]> (DashboardState._items s0)) ∅)) as Hs1.
  { by apply init_serialized. }
  assert (truthy (can_edit (with_params c1 {["id" := VStr k]})) = true) as Hperm1.
  { unfold can_edit in *. simpl. by rewrite Huser. }
  split; [by apply on_remove_run|].
  assert (DashboardState._items
            (snd (DashboardState.remove_item
                    (dict_get (params (with_params c1 {["id" := VStr k]})) "id" VNone)
                    (DashboardState.mk (with_params c1 {["id" := VStr k]})
                       (<[k := item]> (DashboardState._items s0)) ∅)))
          = DashboardState._items s0) as Hitems.
  { rewrite remove_item_items. unfold dict_get. simpl. rewrite lookup_singleton_eq. simpl.
    by apply delete_insert_id. }
  split.
  - rewrite apply_state_items_config. unfold DashboardState.items_as_dict.
    by rewrite Hitems.
  - apply init_serialized. rewrite apply_state_items_config.
    unfold DashboardState.items_as_dict. by rewrite Hitems.
Qed.

Lemma add_then_remove_witness :
  let c := sample_ctx line_request editor panel_with_pie in
  exists c1 c2,
    CustomDashboard.handle_plot_change 11 false c = (Ok tt, c1)
    /\ CustomDashboard.on_remove (with_params c1 {["id" := VStr "plot_11"]}) = (Ok tt, c2)
    /\ state (panel c2) !! "items_config"
       = Some (VDict (DashboardPlotItem.to_dict
                        <$> ({["plot_7" := pie_widget]} : gmap string DashboardPlotItem.t))).
Proof.
  intros c.
  destruct (line_request_item 11 editor panel_with_pie)
    as (r & p & item & Hraw & Hp & Hitem & Hk & Hty).
  destruct (add_then_remove 11 false c r p
              (DashboardState.mk c {["plot_7" := pie_widget]} ∅) item "plot_11"
              Hraw Hp)
    as (c1 & c2 & Hrun & Hrem & Hstate & _).
  - vm_compute. reflexivity.
  - exact Hitem.
  - exact Hk.
  - reflexivity.
  - reflexivity.
  - exists c1, c2. repeat split; done.
Defined.

(** ** Plot changes that go wrong *)

(** X11. A plot change without a dict under ["result"] raises
    [AttributeError] before anything is written, and one over panel state
    that does not load raises what the loading raises, again writing
    nothing.  A result whose plot type is none of the five is swallowed: the
    handler returns normally, and both the collection and the render data are
    as they were. *)
Theorem plot_change_failures (drawn : Z) (edit : bool) (c : ExecutionContext) :
  ((forall r, dict_get (params c) "result" VNone <> VDict r) ->
   CustomDashboard.handle_plot_change drawn edit c = (Raise AttributeError, c)) /\
  (forall r p e,
     dict_get (params c) "result" VNone = VDict r ->
     get_plotly_config_and_layout (VDict r) = Ok p ->
     DashboardState.__init__ c = Raise e ->
     CustomDashboard.handle_plot_change drawn edit c = (Raise e, c)) /\
  (forall r p s0,
     dict_get (params c) "result" VNone = VDict r ->
     get_plotly_config_and_layout (VDict r) = Ok p ->
     DashboardState.__init__ c = Ok s0 ->
     (forall s, dict_get r "plot_type" VNone = VStr s -> s ∉ five_values) ->
     exists c',
       CustomDashboard.handle_plot_change drawn edit c = (Ok tt, c')
       /\ DashboardState.__init__ c'
          = Ok (DashboardState.mk c' (DashboardState._items s0) ∅)
       /\ data (panel c') = data (panel c)).
Proof.
  repeat apply conj.
  - intros Hnd. unfold CustomDashboard.handle_plot_change, get_plotly_config_and_layout.
    destruct (dict_get (params c) "result" VNone); try done. by destruct (Hnd d).
  - intros r p e Hraw Hp He. unfold CustomDashboard.handle_plot_change.
    rewrite Hraw, Hp. simpl. by rewrite He.
  - intros r p s0 Hraw Hp Hs0 Hty.
    eexists. split; [by apply handle_plot_change_run|].
    assert (CustomDashboard.plot_item drawn (VDict r) r p = Raise ValueError) as Hitem.
    { unfold CustomDashboard.plot_item, DashboardPlotItem.__init__.
      by rewrite (PlotType_call_outside _ Hty). }
    unfold mbind, lift. rewrite Hitem. cbn [snd]. split.
    + apply init_serialized, apply_state_items_config.
    + destruct (init_ctx _ _ Hs0) as [Hc0 _]. simpl. by rewrite Hc0.
Qed.

Lemma plot_change_failures_witness :
  CustomDashboard.handle_plot_change 3 false (sample_ctx ∅ editor panel_with_pie)
  = (Raise AttributeError, sample_ctx ∅ editor panel_with_pie).
Proof.
  apply (proj1 (plot_change_failures 3 false (sample_ctx ∅ editor panel_with_pie))).
  intros r H. vm_compute in H. discriminate.
Defined.

(** ** Editing *)

(** X12. Editing comes back to the same widget.  For a permitted user and a
    widget that is there, [on_edit] prompts with the widget's stored
    parameters and its name; and a result that carries that name is built
    into a widget of the same name, whatever number is drawn. *)
Theorem edit_keeps_the_name (c : ExecutionContext) (s0 : DashboardState.t)
    (k : string) (item : DashboardPlotItem.t) (r : gmap string pyval) :
  DashboardState.__init__ c = Ok s0 ->
  dict_get (params c) "id" VNone = VStr k ->
  DashboardState._items s0 !! k = Some item ->
  truthy (can_edit c) = true ->
  DashboardPlotItem.raw_params item = VDict r ->
  CustomDashboard.on_edit c
  = (Ok tt, prompt c CustomDashboard.configure_plot_uri cb_on_edit_success
              (Some (VDict (<["name" := DashboardPlotItem.name item]> r)))) /\
  forall drawn raw r' p item',
    r' !! "name" = Some (DashboardPlotItem.name item) ->
    CustomDashboard.plot_item drawn raw r' p = Ok item' ->
    DashboardPlotItem.name item' = DashboardPlotItem.name item.
Proof.
  intros Hs0 Hid Hk Hperm Hraw. split.
  - unfold CustomDashboard.on_edit. rewrite Hs0, Hid. simpl. rewrite Hk, Hperm.
    unfold DashboardPlotItem.to_configure_plot_params. by rewrite Hraw.
  - intros drawn raw r' p item' Hn Hitem.
    rewrite (plot_item_name _ _ _ _ _ Hitem). unfold dict_get. by rewrite Hn.
Qed.

Lemma edit_keeps_the_name_witness :
  let c := sample_ctx (remove_request "plot_7") editor panel_with_pie in
  CustomDashboard.on_edit c
  = (Ok tt, prompt c CustomDashboard.configure_plot_uri cb_on_edit_success
              (Some (VDict (<["name" := VStr "plot_7"]>
                             (<["plot_type" := VStr "pie"]> {["field" := VStr "label"]}))))).
Proof.
  intros c.
  assert (DashboardState.__init__ c
          = Ok (DashboardState.mk c {["plot_7" := pie_widget]} ∅)) as Hs0.
  { vm_compute. reflexivity. }
  exact (proj1 (edit_keeps_the_name c _ "plot_7" pie_widget
                  (<["plot_type" := VStr "pie"]> {["field" := VStr "label"]})
                  Hs0 eq_refl eq_refl eq_refl eq_refl)).
Defined.

(** X13. [on_edit] of an id that is not in the collection returns without
    prompting, for any user; for a permitted user and a widget whose stored
    parameters are no dict it raises [TypeError], and nothing is prompted. *)
Theorem edit_edge_cases (c : ExecutionContext) (s0 : DashboardState.t) :
  DashboardState.__init__ c = Ok s0 ->
  ((forall k, dict_get (params c) "id" VNone = VStr k ->
              DashboardState._items s0 !! k = None) ->
   (forall l, dict_get (params c) "id" VNone <> VList l) ->
   (forall d, dict_get (params c) "id" VNone <> VDict d) ->
   CustomDashboard.on_edit c = (Ok tt, c)) /\
  (forall k item,
     dict_get (params c) "id" VNone = VStr k ->
     DashboardState._items s0 !! k = Some item ->
     truthy (can_edit c) = true ->
     (forall r, DashboardPlotItem.raw_params item <> VDict r) ->
     CustomDashboard.on_edit c = (Raise TypeError, c)).
Proof.
  intros Hs0. split.
  - intros Habs Hl Hd. unfold CustomDashboard.on_edit. rewrite Hs0. simpl.
    unfold DashboardState.get_item.
    destruct (dict_get (params c) "id" VNone) as [| | | |k|l|d] eqn:E; try done.
    + by rewrite (Habs k eq_refl).
    + by destruct (Hl l).
    + by destruct (Hd d).
  - intros k item Hid Hk Hperm Hraw. unfold CustomDashboard.on_edit.
    rewrite Hs0, Hid. simpl. rewrite Hk, Hperm.
    unfold DashboardPlotItem.to_configure_plot_params.
    destruct (DashboardPlotItem.raw_params item); try done. by destruct (Hraw d).
Qed.

Lemma edit_edge_cases_witness :
  let c := sample_ctx (remove_request "plot_404") editor panel_with_pie in
  CustomDashboard.on_edit c = (Ok tt, c).
Proof.
  intros c.
  assert (DashboardState.__init__ c
          = Ok (DashboardState.mk c {["plot_7" := pie_widget]} ∅)) as Hs0.
  { vm_compute. reflexivity. }
  apply (proj1 (edit_edge_cases c _ Hs0)).
  - intros k H. vm_compute in H. injection H as <-. reflexivity.
  - intros l H. vm_compute in H. discriminate.
  - intros d H. vm_compute in H. discriminate.
Defined.

(** ** The operator's result *)

Lemma layout_Ok_form (v : pyval) (p : gmap string pyval) :
  get_plotly_config_and_layout v = Ok p ->
  exists layout, p = <["layout" := VDict layout]> {["config" := VDict ∅]}.
Proof.
  unfold get_plotly_config_and_layout. intros H.
  apply rbind_Ok_inv in H as (pc & _ & H).
  apply rbind_Ok_inv in H as (layout2 & _ & H). injection H as <-. eauto.
Qed.




(** ** Labels and rendering *)

(** X15. A widget built by [handle_plot_change] has the empty dict as its
    display config, whatever title the user gave (the title goes to the
    layout): so its label is its name, and when it is a pie its payload is
    named ["Pie Chart"]. *)
Theorem built_widget_label (drawn : Z) (raw : pyval) (r p : gmap string pyval)
    (item : DashboardPlotItem.t) :
  get_plotly_config_and_layout raw = Ok p ->
  CustomDashboard.plot_item drawn raw r p = Ok item ->
  DashboardPlotItem.config item = VDict ∅
  /\ DashboardPlotItem.raw_params item = raw
  /\ (exists layout, DashboardPlotItem.layout item = VDict layout)
  /\ DashboardPlotItem.label item = Ok (DashboardPlotItem.name item)
  /\ forall self d,
       DashboardState.load_pie_data self item = Ok (VDict d) ->
       d = ∅ \/ d !! "name" = Some (VStr "Pie Chart").
Proof.
  intros Hp Hitem. destruct (layout_Ok_form _ _ Hp) as [layout ->].
  unfold CustomDashboard.plot_item, DashboardPlotItem.__init__ in Hitem.
  apply rbind_Ok_inv in Hitem as (ty & _ & Hitem). injection Hitem as <-.
  unfold DashboardPlotItem.label, DashboardState.load_pie_data. simpl.
  repeat split.
  - eauto.
  - intros self d. destruct (negb _); [intros [= <-]; by left|].
    destruct (count_values _ _); simpl; [|discriminate].
    destruct (negb _); [discriminate|].
    intros [= <-]. right. by simplify_map_eq.
Qed.

Lemma built_widget_label_witness :
  exists item,
    CustomDashboard.plot_item 7
      (VDict (<["plot_title" := VStr "Sizes"]> {["plot_type" := VStr "pie"]}))
      (<["plot_title" := VStr "Sizes"]> {["plot_type" := VStr "pie"]})
      (<["layout" := VDict {["title" := VStr "Sizes"]}]> {["config" := VDict ∅]})
    = Ok item
    /\ DashboardPlotItem.label item = Ok (VStr "plot_7").
Proof.
  eexists. split; [reflexivity|].
  apply (built_widget_label 7
           (VDict (<["plot_title" := VStr "Sizes"]> {["plot_type" := VStr "pie"]}))
           (<["plot_title" := VStr "Sizes"]> {["plot_type" := VStr "pie"]})
           (<["layout" := VDict {["title" := VStr "Sizes"]}]> {["config" := VDict ∅]})).
  - vm_compute. reflexivity.
  - reflexivity.
Defined.

Lemma result_mapM_all_Ok {A B : Type} (f : A -> result B) (l : list A) :
  (forall x, x ∈ l -> exists y, f x = Ok y) ->
  exists l', result_mapM f l = Ok l'
             /\ length l' = length l
             /\ forall y, y ∈ l' -> exists x, x ∈ l /\ f x = Ok y.
Proof.
  induction l as [|x l IH]; intros H; simpl.
  - exists []. split; [done|]. split; [done|].
    intros y Hy. by apply elem_of_nil in Hy.
  - destruct (H x) as [y Hy]; [left|].
    destruct IH as (l' & Hl' & Hlen & Hin).
    { intros x' Hx'. apply H. by right. }
    rewrite Hy, Hl'. simpl. exists (y :: l'). split; [done|].
    split; [simpl; by f_equal|].
    intros y' [->|Hy']%elem_of_cons.
    + exists x. split; [left | done].
    + destruct (Hin _ Hy') as (x' & Hx' & Hf). exists x'. split; [by right | done].
Qed.

Lemma result_mapM_some_Raise {A B : Type} (f : A -> result B) (l : list A) (e : exn) :
  (forall x e', f x = Raise e' -> e' = e) ->
  (exists x, x ∈ l /\ f x = Raise e) ->
  result_mapM f l = Raise e.
Proof.
  intros Hone. induction l as [|x l IH]; intros (x0 & Hin & Hx0).
  - by apply elem_of_nil in Hin.
  - simpl. destruct (f x) as [y|e'] eqn:Hfx.
    + simpl. apply elem_of_cons in Hin as [->|Hin]; [congruence|].
      rewrite IH; [done | eauto].
    + simpl. by rewrite (Hone _ _ Hfx).
Qed.

Lemma result_mapM_Forall2 {A B : Type} (f : A -> result B) (l : list A) (l' : list B) :
  result_mapM f l = Ok l' -> Forall2 (fun x y => f x = Ok y) l l'.
Proof.
  revert l'. induction l as [|x l IH]; intros l' H; simpl in H.
  - injection H as <-. constructor.
  - apply rbind_Ok_inv in H as (y & Hy & H).
    apply rbind_Ok_inv in H as (ys & Hys & H). injection H as <-.
    constructor; [done | by apply IH].
Qed.

(** X16. The dashboard renders one property per widget: the properties are,
    one for one, the widgets of the collection, each added under the
    widget's name with its label, config, layout and field bindings.  So
    every widget has its property and every property its widget.  This holds
    whenever every widget's display config is a dict; the height is 100
    exactly for an empty dashboard.  One widget whose config is no dict makes
    the whole rendering raise [AttributeError]. *)
Theorem render_dashboard_properties (c : ExecutionContext) (s0 : DashboardState.t)
    (on_click_plot on_plot_select : callback) :
  DashboardState.__init__ c = Ok s0 ->
  (config_is_dict (DashboardState._items s0) ->
   exists prop,
     CustomDashboard.render_dashboard c on_click_plot on_plot_select = Ok prop
     /\ (exists its,
          its ≡ₚ DashboardState.items s0
          /\ Forall2 (renders_as on_click_plot on_plot_select) its (properties prop))
     /\ length (properties prop) = DashboardState.item_count s0
     /\ height (dashboard_view prop)
        = (if (DashboardState.item_count s0 =? 0)%nat then Some 100 else None)
     /\ (forall k item,
          DashboardState._items s0 !! k = Some item ->
          exists entry,
            entry ∈ properties prop
            /\ renders_as on_click_plot on_plot_select item entry)
     /\ (forall entry,
          entry ∈ properties prop ->
          exists k item,
            DashboardState._items s0 !! k = Some item
            /\ renders_as on_click_plot on_plot_select item entry)) /\
  (forall k item,
     DashboardState._items s0 !! k = Some item ->
     (forall d, DashboardPlotItem.config item <> VDict d) ->
     CustomDashboard.render_dashboard c on_click_plot on_plot_select
     = Raise AttributeError).
Proof.
  intros Hs0. unfold CustomDashboard.render_dashboard. rewrite Hs0. simpl. split.
  - intros Hcfg.
    destruct (result_mapM_all_Ok
                (fun dashboard_item =>
                   p <~ DashboardPlotProperty.from_item dashboard_item
                          on_click_plot on_plot_select ;;
                   Ok (DashboardPlotItem.name dashboard_item, p))
                (DashboardState.items s0)) as (l' & Hl' & Hlen & _).
    { intros item [k Hk]%elem_of_items. destruct (Hcfg _ _ Hk) as [d Hd].
      unfold DashboardPlotProperty.from_item, DashboardPlotProperty.__init__,
        DashboardPlotItem.label. rewrite Hd. simpl. eauto. }
    assert (Forall2 (renders_as on_click_plot on_plot_select)
              (DashboardState.items s0) l') as Hall.
    { eapply Forall2_impl; [by apply result_mapM_Forall2|].
      intros item [nm pr] Hf.
      unfold DashboardPlotProperty.from_item, DashboardPlotProperty.__init__ in Hf.
      destruct (DashboardPlotItem.label item) as [lbl|] eqn:Hlbl; [|discriminate].
      simpl in Hf. injection Hf as <- <-. by repeat split. }
    rewrite Hl'. simpl. eexists. split; [done|]. simpl.
    split; [by exists (DashboardState.items s0)|].
    split.
    { rewrite Hlen. unfold DashboardState.items, DashboardState.item_count.
      by rewrite length_fmap, length_map_to_list. }
    split; [done|]. split.
    + intros k item Hk.
      assert (item ∈ DashboardState.items s0) as Hin by (apply elem_of_items; eauto).
      apply list_elem_of_lookup in Hin as [i Hi].
      destruct (Forall2_lookup_l _ _ _ _ _ Hall Hi) as (entry & He & Hr).
      exists entry. split; [|done]. apply list_elem_of_lookup. eauto.
    + intros entry [i Hi]%list_elem_of_lookup.
      destruct (Forall2_lookup_r _ _ _ _ _ Hall Hi) as (item & Hit & Hr).
      assert (item ∈ DashboardState.items s0) as Hin
        by (apply list_elem_of_lookup; eauto).
      apply elem_of_items in Hin as [k Hk]. eauto.
  - intros k item Hk Hcfg.
    rewrite (result_mapM_some_Raise _ _ AttributeError); [done| |].
    + intros x e. unfold DashboardPlotProperty.from_item, DashboardPlotProperty.__init__,
        DashboardPlotItem.label.
      destruct (DashboardPlotItem.config x); simpl; by intros [= <-].
    + exists item. split; [apply elem_of_items; eauto|].
      unfold DashboardPlotProperty.from_item, DashboardPlotProperty.__init__,
        DashboardPlotItem.label.
      destruct (DashboardPlotItem.config item); try done. by destruct (Hcfg d).
Qed.

Lemma render_dashboard_properties_witness :
  let c := sample_ctx ∅ viewer panel_with_two in
  exists prop,
    CustomDashboard.render_dashboard c cb_on_click_plot cb_on_plot_select = Ok prop
    /\ length (properties prop) = 2%nat
    /\ height (dashboard_view prop) = None
    /\ (exists entry, entry ∈ properties prop
                      /\ renders_as cb_on_click_plot cb_on_plot_select pie_widget entry)
    /\ (exists entry, entry ∈ properties prop
                      /\ renders_as cb_on_click_plot cb_on_plot_select
                           histogram_widget entry).
Proof.
  intros c.
  assert (DashboardState.__init__ c
          = Ok (DashboardState.mk c
                  (<["plot_7" := pie_widget]> {["plot_3" := histogram_widget]}) ∅)) as Hs0.
  { vm_compute. reflexivity. }
  destruct (proj1 (render_dashboard_properties c _ cb_on_click_plot cb_on_plot_select Hs0))
    as (prop & Hr & _ & Hlen & Hh & Heach & _).
  - intros k it Hk. simpl in Hk.
    apply lookup_insert_Some in Hk as [[_ <-]|[_ Hk]]; [by eexists|].
    apply lookup_singleton_Some in Hk as [_ <-]. by eexists.
  - exists prop. split; [done|]. split; [done|]. split; [done|]. split.
    + apply (Heach "plot_7"). reflexivity.
    + apply (Heach "plot_3"). reflexivity.
Defined.

(** ** Loading every widget *)

Lemma load_selected_Ok (sel : DashboardPlotItem.t -> bool)
    (item : DashboardPlotItem.t) (s s1 : DashboardState.t) :
  load_selected sel item s = (Ok tt, s1) ->
  (sel item = false /\ s1 = s) \/
  (sel item = true /\
   exists k d, DashboardPlotItem.name item = VStr k
               /\ DashboardState.load_plot_data s (VStr k) = Ok d
               /\ s1 = DashboardState.set_data (<[k := d]> (DashboardState._data s)) s).
Proof.
  unfold load_selected. destruct (sel item) eqn:Hf.
  - intros H. right. split; [done|].
    apply mbind_Ok_inv in H as (d & s2 & Hd & H).
    unfold reads in Hd. injection Hd as Hd <-.
    unfold DashboardState.setitem_data in H.
    apply mbind_Ok_inv in H as (k & s3 & Hk & H).
    unfold lift in Hk. injection Hk as Hk <-.
    unfold modify in H. injection H as <-.
    destruct (DashboardPlotItem.name item) as [| | | |k0| |] eqn:Hn; try discriminate.
    injection Hk as ->. exists k, d. by rewrite <- Hn at 1.
  - intros [= <-]. by left.
Qed.

(** A loop over the selected widgets touches only [_data], and there only
    the keys of those widgets. *)
Lemma for_each_load_selected (sel : DashboardPlotItem.t -> bool)
    (l : list DashboardPlotItem.t) (s s' : DashboardState.t) :
  DashboardState.for_each l (load_selected sel) s = (Ok tt, s') ->
  DashboardState.ctx s' = DashboardState.ctx s /\
  DashboardState._items s' = DashboardState._items s /\
  forall k,
    if existsb (selects sel k) l
    then exists d, DashboardState.load_plot_data s (VStr k) = Ok d
                   /\ DashboardState._data s' !! k = Some d
    else DashboardState._data s' !! k = DashboardState._data s !! k.
Proof.
  revert s. induction l as [|item l IH]; intros s H.
  - injection H as <-. by repeat split.
  - simpl in H. apply mbind_Ok_inv in H as ([] & s1 & H1 & H).
    destruct (IH _ H) as (Hc & Hi & Hd).
    apply load_selected_Ok in H1 as [[Hf ->]|(Hf & k0 & d0 & Hn & Hl & ->)].
    + repeat split; try done. intros k. specialize (Hd k).
      simpl. unfold selects at 1. rewrite Hf.
      destruct (DashboardPlotItem.name item); try done.
      by rewrite andb_false_r.
    + simpl in *. repeat split; try done. intros k. specialize (Hd k).
      unfold selects at 1. rewrite Hn, Hf, andb_true_r.
      destruct (existsb (selects sel k) l) eqn:Hex.
      * rewrite orb_true_r. destruct Hd as (d & Hd1 & Hd2). exists d. split; [|done].
        rewrite <- Hd1. by apply load_plot_data_frame.
      * rewrite orb_false_r. destruct (String.eqb_spec k0 k) as [->|Hne].
        -- exists d0. split; [done|]. rewrite Hd. simpl. apply lookup_insert_eq.
        -- rewrite Hd. simpl. by apply lookup_insert_ne.
Qed.

Lemma selects_all (s : DashboardState.t) (k : string) :
  keyed_by_name (DashboardState._items s) ->
  existsb (selects (fun _ => true) k) (DashboardState.items s)
  = bool_decide (is_Some (DashboardState._items s !! k)).
Proof.
  intros Hkey. apply eq_true_iff_eq. rewrite existsb_exists, bool_decide_eq_true. split.
  - intros (it & Hin & Hsel). apply list_elem_of_In, elem_of_items in Hin as [k' Hk'].
    unfold selects in Hsel. rewrite (Hkey _ _ Hk'), andb_true_r in Hsel.
    apply String.eqb_eq in Hsel as ->. eauto.
  - intros [it Hk]. exists it. split.
    + apply list_elem_of_In, elem_of_items. eauto.
    + unfold selects. by rewrite (Hkey _ _ Hk), String.eqb_refl.
Qed.

(** X17. When [on_load] completes, every widget of the collection has its
    payload at ["items.<name>"], every other render-data path is as it was,
    and the panel state is untouched. *)
Theorem on_load_loads_every_widget (c c' : ExecutionContext) (s0 : DashboardState.t) :
  DashboardState.__init__ c = Ok s0 ->
  keyed_by_name (DashboardState._items s0) ->
  CustomDashboard.on_load c = (Ok tt, c') ->
  state (panel c') = state (panel c) /\
  (forall k item,
     DashboardState._items s0 !! k = Some item ->
     exists payload,
       DashboardState.load_plot_data_for_item s0 item = Ok payload
       /\ data (panel c') !! ("items." +:+ k) = Some payload) /\
  (forall path,
     (forall k, is_Some (DashboardState._items s0 !! k) -> path <> "items." +:+ k) ->
     data (panel c') !! path = data (panel c) !! path).
Proof.
  intros Hs0 Hkey Hrun. unfold CustomDashboard.on_load in Hrun. rewrite Hs0 in Hrun.
  destruct (DashboardState.load_all_plot_data s0) as [r s] eqn:E.
  injection Hrun as -> <-.
  unfold DashboardState.load_all_plot_data in E.
  apply mbind_Ok_inv in E as (its & s' & Hits & E).
  unfold reads in Hits. injection Hits as <- <-.
  apply mbind_Ok_inv in E as ([] & s1 & Hloop & Happly).
  unfold modify in Happly. injection Happly as <-.
  change (DashboardState.for_each (DashboardState.items s0)
            (load_selected (fun _ => true)) s0 = (Ok tt, s1)) in Hloop.
  destruct (for_each_load_selected _ _ _ _ Hloop) as (Hc & Hi & Hd).
  destruct (init_ctx _ _ Hs0) as [Hc0 Hd0].
  repeat apply conj.
  - by rewrite apply_data_state, Hc, Hc0.
  - intros k item Hk. specialize (Hd k).
    rewrite (selects_all _ _ Hkey), bool_decide_eq_true_2 in Hd by eauto.
    destruct Hd as (d & Hd1 & Hd2). exists d.
    rewrite <- (load_plot_data_item _ _ _ Hk). split; [done|].
    pose proof (apply_data_lookup s1 k) as Hl.
    unfold DashboardState.data_path in Hl. by rewrite Hl, Hd2.
  - intros path Hpath. rewrite apply_data_other; [by rewrite Hc, Hc0|].
    intros k Hk. specialize (Hd k). rewrite (selects_all _ _ Hkey) in Hd.
    destruct (bool_decide (is_Some (DashboardState._items s0 !! k))) eqn:Hb.
    + apply bool_decide_eq_true in Hb. by apply Hpath.
    + apply elem_of_dom in Hk as [v Hv].
      rewrite Hd, Hd0, lookup_empty in Hv. discriminate.
Qed.

Lemma on_load_loads_every_widget_witness :
  let c := sample_ctx ∅ viewer panel_with_two in
  let s0 := DashboardState.mk c
              (<["plot_7" := pie_widget]> {["plot_3" := histogram_widget]}) ∅ in
  let c' := snd (CustomDashboard.on_load c) in
  state (panel c') = state (panel c) /\
  (forall k item,
     DashboardState._items s0 !! k = Some item ->
     exists payload,
       DashboardState.load_plot_data_for_item s0 item = Ok payload
       /\ data (panel c') !! ("items." +:+ k) = Some payload) /\
  (forall path,
     (forall k, is_Some (DashboardState._items s0 !! k) -> path <> "items." +:+ k) ->
     data (panel c') !! path = data (panel c) !! path).
Proof.
  intros c s0 c'.
  apply (on_load_loads_every_widget c c' s0).
  - vm_compute. reflexivity.
  - apply keyed_by_name_insert; [reflexivity|].
    apply keyed_by_name_insert; [reflexivity|].
    apply keyed_by_name_empty.
  - vm_compute. reflexivity.
Defined.

(** ** Clicks and selections *)

Lemma PlotType_eqb_eq (a b : PlotType) : PlotType_eqb a b = true <-> a = b.
Proof. destruct a, b; split; (reflexivity || discriminate). Qed.

(** X18. A click or a selection on a path that names no widget raises
    [AttributeError]: both handlers read the widget's attributes without
    testing that there is one. *)
Theorem plot_event_on_unknown_widget (dataset : Dataset) (c : ExecutionContext)
    (s0 : DashboardState.t) (k : string) :
  DashboardState.__init__ c = Ok s0 ->
  dict_get (params c) "relative_path" VNone = VStr k ->
  DashboardState._items s0 !! k = None ->
  CustomDashboard.on_click_plot dataset c = Raise AttributeError
  /\ CustomDashboard.on_plot_select dataset c = Raise AttributeError.
Proof.
  intros Hs0 Hid Hk.
  unfold CustomDashboard.on_click_plot, CustomDashboard.on_plot_select.
  rewrite Hs0, Hid. simpl. by rewrite Hk.
Qed.

Lemma plot_event_on_unknown_widget_witness :
  let c := sample_ctx {["relative_path" := VStr "plot_404"]} viewer panel_with_plots in
  CustomDashboard.on_click_plot sample_dataset c = Raise AttributeError
  /\ CustomDashboard.on_plot_select sample_dataset c = Raise AttributeError.
Proof.
  intros c.
  assert (DashboardState.__init__ c
          = Ok (DashboardState.mk c
                  (<["plot_3" := histogram_widget]> {["plot_5" := scatter_widget]}) ∅)) as Hs0.
  { vm_compute. reflexivity. }
  exact (plot_event_on_unknown_widget sample_dataset c _ "plot_404" Hs0 eq_refl eq_refl).
Defined.

(** X19. What asks nothing of the host.  A click or a selection on a
    snippet-driven widget or on a pie; a selection on a histogram; a click
    without a truthy ["range"] on anything but a categorical histogram. *)
Theorem plot_events_without_action (dataset : Dataset) (c : ExecutionContext)
    (s0 : DashboardState.t) (k : string) (item : DashboardPlotItem.t) :
  DashboardState.__init__ c = Ok s0 ->
  dict_get (params c) "relative_path" VNone = VStr k ->
  DashboardState._items s0 !! k = Some item ->
  (truthy (DashboardPlotItem.use_code item) = true \/ DashboardPlotItem.type item = pie ->
   CustomDashboard.on_click_plot dataset c = Ok []
   /\ CustomDashboard.on_plot_select dataset c = Ok []) /\
  (DashboardPlotItem.type item = categorical_histogram
   \/ DashboardPlotItem.type item = numeric_histogram ->
   CustomDashboard.on_plot_select dataset c = Ok []) /\
  (DashboardPlotItem.type item <> categorical_histogram ->
   truthy (dict_get (params c) "range" VNone) = false ->
   CustomDashboard.on_click_plot dataset c = Ok []).
Proof.
  intros Hs0 Hid Hk.
  unfold CustomDashboard.on_click_plot, CustomDashboard.on_plot_select.
  rewrite Hs0, Hid. simpl. rewrite Hk. repeat apply conj.
  - intros [Hu|Hty]; [by rewrite Hu|].
    rewrite Hty. by rewrite orb_true_r.
  - intros [Hty|Hty]; rewrite Hty; by destruct (truthy _).
  - intros Hty Hr. rewrite Hr.
    destruct (truthy (DashboardPlotItem.use_code item)); [done|].
    by destruct (DashboardPlotItem.type item).
Qed.

Lemma plot_events_without_action_witness :
  let c := sample_ctx {["relative_path" := VStr "plot_3"]} viewer panel_with_plots in
  CustomDashboard.on_plot_select sample_dataset c = Ok [].
Proof.
  intros c.
  assert (DashboardState.__init__ c
          = Ok (DashboardState.mk c
                  (<["plot_3" := histogram_widget]> {["plot_5" := scatter_widget]}) ∅)) as Hs0.
  { vm_compute. reflexivity. }
  apply (proj1 (proj2 (plot_events_without_action sample_dataset c _ "plot_3"
                         histogram_widget Hs0 eq_refl eq_refl))).
  by right.
Defined.

(** X20. Clicking a field-driven histogram.  A categorical histogram sets
    the view to the dataset's [match_values] of the widget's field and the
    clicked value, whatever the range.  A numeric histogram with a two-item
    range triggers [set_view] with one [Match] stage whose filter bounds the
    widget's [x_field] by the range, ends included; a range list of any
    other positive length raises [ValueError]. *)
Theorem histogram_click (dataset : Dataset) (c : ExecutionContext)
    (s0 : DashboardState.t) (k : string) (item : DashboardPlotItem.t) :
  DashboardState.__init__ c = Ok s0 ->
  dict_get (params c) "relative_path" VNone = VStr k ->
  DashboardState._items s0 !! k = Some item ->
  truthy (DashboardPlotItem.use_code item) = false ->
  (DashboardPlotItem.type item = categorical_histogram ->
   CustomDashboard.on_click_plot dataset c
   = (v <~ match_values dataset (DashboardPlotItem.field item)
             (dict_get (params c) "x" VNone) ;;
      Ok [SetView v])) /\
  (DashboardPlotItem.type item = numeric_histogram ->
   forall lo hi xf,
     dict_get (params c) "range" VNone = VList [lo; hi] ->
     DashboardPlotItem.x_field item = VStr xf ->
     CustomDashboard.on_click_plot dataset c
     = Ok [Trigger "set_view"
             (match_stage {[xf := VDict (<["$gte" := lo]> {["$lte" := hi]})]})]) /\
  (DashboardPlotItem.type item = numeric_histogram ->
   forall l,
     dict_get (params c) "range" VNone = VList l ->
     l <> [] -> length l <> 2%nat ->
     CustomDashboard.on_click_plot dataset c = Raise ValueError).
Proof.
  intros Hs0 Hid Hk Hu.
  unfold CustomDashboard.on_click_plot.
  rewrite Hs0, Hid. simpl. rewrite Hk, Hu. repeat apply conj.
  - intros ->. reflexivity.
  - intros -> lo hi xf Hr Hx. rewrite Hr, Hx. reflexivity.
  - intros -> l Hr Hne Hlen. rewrite Hr. simpl.
    destruct l as [|a [|b [|? ?]]]; try done.
Qed.

Lemma histogram_click_witness :
  let c := sample_ctx (<["relative_path" := VStr "plot_3"]>
                       {["range" := VList [VFloat 0.5; VFloat 1.5]]})
             viewer panel_with_plots in
  CustomDashboard.on_click_plot sample_dataset c
  = Ok [Trigger "set_view"
          (match_stage {["confidence" :=
             VDict (<["$gte" := VFloat 0.5]> {["$lte" := VFloat 1.5]})]})].
Proof.
  intros c.
  assert (DashboardState.__init__ c
          = Ok (DashboardState.mk c
                  (<["plot_3" := histogram_widget]> {["plot_5" := scatter_widget]}) ∅)) as Hs0.
  { vm_compute. reflexivity. }
  exact (proj1 (proj2 (histogram_click sample_dataset c _ "plot_3" histogram_widget
                         Hs0 eq_refl eq_refl eq_refl))
           eq_refl (VFloat 0.5) (VFloat 1.5) "confidence" eq_refl eq_refl).
Defined.

(** X21. Clicking a field-driven scatter or line chart with a truthy range
    triggers [set_view] with one [Match] stage that pins the widget's
    [x_field] to the clicked x and its [y_field] to the clicked y; the range
    itself is not part of the filter.  When both bindings name the same
    field, only the y value is matched. *)
Theorem point_click (dataset : Dataset) (c : ExecutionContext)
    (s0 : DashboardState.t) (k : string) (item : DashboardPlotItem.t)
    (xf yf : string) :
  DashboardState.__init__ c = Ok s0 ->
  dict_get (params c) "relative_path" VNone = VStr k ->
  DashboardState._items s0 !! k = Some item ->
  truthy (DashboardPlotItem.use_code item) = false ->
  DashboardPlotItem.type item = scatter \/ DashboardPlotItem.type item = line ->
  truthy (dict_get (params c) "range" VNone) = true ->
  DashboardPlotItem.x_field item = VStr xf ->
  DashboardPlotItem.y_field item = VStr yf ->
  CustomDashboard.on_click_plot dataset c
  = Ok [Trigger "set_view"
          (match_stage (<[yf := dict_get (params c) "y" VNone]>
                          {[xf := dict_get (params c) "x" VNone]}))]
  /\ (xf = yf ->
      CustomDashboard.on_click_plot dataset c
      = Ok [Trigger "set_view" (match_stage {[yf := dict_get (params c) "y" VNone]})]).
Proof.
  intros Hs0 Hid Hk Hu Hty Hr Hx Hy.
  assert (CustomDashboard.on_click_plot dataset c
          = Ok [Trigger "set_view"
                  (match_stage (<[yf := dict_get (params c) "y" VNone]>
                                  {[xf := dict_get (params c) "x" VNone]}))]) as Hrun.
  { unfold CustomDashboard.on_click_plot.
    rewrite Hs0, Hid. simpl. rewrite Hk, Hu.
    destruct Hty as [-> | ->]; simpl; by rewrite Hr, Hx, Hy. }
  split; [done|]. intros ->. rewrite Hrun. by rewrite insert_singleton_eq.
Qed.

Lemma point_click_witness :
  let c := sample_ctx (<["relative_path" := VStr "plot_5"]>
                       (<["range" := VList [VInt 0; VInt 1]]>
                       (<["x" := VInt 640]> {["y" := VInt 480]})))
             viewer panel_with_plots in
  CustomDashboard.on_click_plot sample_dataset c
  = Ok [Trigger "set_view"
          (match_stage (<["height" := VInt 480]> {["width" := VInt 640]}))].
Proof.
  intros c.
  assert (DashboardState.__init__ c
          = Ok (DashboardState.mk c
                  (<["plot_3" := histogram_widget]> {["plot_5" := scatter_widget]}) ∅)) as Hs0.
  { vm_compute. reflexivity. }
  exact (proj1 (point_click sample_dataset c _ "plot_5" scatter_widget "width" "height"
                  Hs0 eq_refl eq_refl eq_refl (or_introl eq_refl) eq_refl eq_refl eq_refl)).
Defined.

Lemma result_mapM_ids (es : list (gmap string pyval)) :
  result_mapM (fun d => e <~ as_dict d ;; Ok (dict_get e "id" VNone)) (VDict <$> es)
  = Ok ((fun e => dict_get e "id" VNone) <$> es).
Proof.
  induction es as [|e es IH]; [done|]. simpl.
  change (list_fmap _ _ VDict es) with (VDict <$> es). by rewrite IH.
Qed.

(** X22. Selecting points of a field-driven scatter or line chart sets the
    view to the dataset's [select] of the ["id"] of every selected entry, in
    order; an empty selection asks nothing, and a selection without
    ["data"] raises [TypeError]. *)
Theorem point_selection (dataset : Dataset) (c : ExecutionContext)
    (s0 : DashboardState.t) (k : string) (item : DashboardPlotItem.t) :
  DashboardState.__init__ c = Ok s0 ->
  dict_get (params c) "relative_path" VNone = VStr k ->
  DashboardState._items s0 !! k = Some item ->
  truthy (DashboardPlotItem.use_code item) = false ->
  DashboardPlotItem.type item = scatter \/ DashboardPlotItem.type item = line ->
  (forall es,
     dict_get (params c) "data" VNone = VList (VDict <$> es) ->
     CustomDashboard.on_plot_select dataset c
     = match es with
       | [] => Ok []
       | _ :: _ =>
           v <~ select dataset ((fun e => dict_get e "id" VNone) <$> es) ;;
           Ok [SetView v]
       end) /\
  (params c !! "data" = None ->
   CustomDashboard.on_plot_select dataset c = Raise TypeError).
Proof.
  intros Hs0 Hid Hk Hu Hty.
  unfold CustomDashboard.on_plot_select.
  rewrite Hs0, Hid. simpl. rewrite Hk, Hu. split.
  - intros es Hdata. rewrite Hdata.
    destruct Hty as [-> | ->]; simpl; rewrite result_mapM_ids; by destruct es.
  - intros Hnone.
    assert (dict_get (params c) "data" VNone = VNone) as ->.
    { unfold dict_get. by rewrite Hnone. }
    by destruct Hty as [-> | ->].
Qed.

Lemma point_selection_witness :
  let c := sample_ctx (<["relative_path" := VStr "plot_5"]>
                       {["data" := VList [VDict (<["idx" := VInt 0]> {["id" := VStr "a1"]});
                                          VDict (<["idx" := VInt 3]> {["id" := VStr "d4"]})]]})
             viewer panel_with_plots in
  CustomDashboard.on_plot_select sample_dataset c
  = Ok [SetView (ViewHandle (VList [VStr "select"; VStr "a1"; VStr "d4"]))].
Proof.
  intros c.
  assert (DashboardState.__init__ c
          = Ok (DashboardState.mk c
                  (<["plot_3" := histogram_widget]> {["plot_5" := scatter_widget]}) ∅)) as Hs0.
  { vm_compute. reflexivity. }
  exact (proj1 (point_selection sample_dataset c _ "plot_5" scatter_widget
                  Hs0 eq_refl eq_refl eq_refl (or_introl eq_refl))
           [<["idx" := VInt 0]> {["id" := VStr "a1"]};
            <["idx" := VInt 3]> {["id" := VStr "d4"]}] eq_refl).
Defined.

(** ** Field choices *)

Lemma isinstance_numeric_categorical (f : Field) :
  isinstance f NUMERIC_TYPES = true -> isinstance f CATEGORICAL_TYPES = true.
Proof. by destruct f. Qed.

(** X23. [get_fields_with_type] lists, in schema order, exactly the paths
    whose field is of one of the types or is a list of such, under the root
    when one is given.  Giving a root only narrows the answer, and every
    numeric choice is also a categorical choice. *)
Theorem field_choices (schema : list (string * Field))
    (field_types : list field_class) (root : option string) :
  (forall path,
     path ∈ get_fields_with_type schema field_types root <->
     exists field,
       (path, field) ∈ schema
       /\ (forall r, root = Some r -> starts_with_dotted r path = true)
       /\ (isinstance field field_types = true
           \/ exists sub, field = ListField (Some sub)
                          /\ isinstance sub field_types = true)) /\
  get_fields_with_type schema field_types root `sublist_of` schema.*1 /\
  (forall path,
     path ∈ get_fields_with_type schema field_types root ->
     path ∈ get_fields_with_type schema field_types None) /\
  (forall path,
     path ∈ get_fields_with_type schema NUMERIC_TYPES root ->
     path ∈ get_fields_with_type schema CATEGORICAL_TYPES root).
Proof.
  assert (forall types rt path,
    path ∈ get_fields_with_type schema types rt <->
    exists field,
      (path, field) ∈ schema
      /\ (forall r, rt = Some r -> starts_with_dotted r path = true)
      /\ (isinstance field types = true
          \/ exists sub, field = ListField (Some sub)
                         /\ isinstance sub types = true)) as Hchar.
  { intros types rt path. unfold get_fields_with_type.
    rewrite list_elem_of_fmap. split.
    - intros ([p f] & -> & [Hp Hin]%list_elem_of_filter). exists f. simpl.
      split; [done|]. apply andb_true_iff in Hp as [Hroot Hty]. split.
      + intros r ->. done.
      + apply orb_true_iff in Hty as [Hty|Hty]; [by left|]. right.
        destruct f as [| | | |[sub|]|]; try discriminate. eauto.
    - intros (f & Hin & Hroot & Hty). exists (path, f). split; [done|].
      apply list_elem_of_filter. split; [|done].
      apply andb_true_iff. split.
      + destruct rt as [r|]; [by apply Hroot | done].
      + apply orb_true_iff. destruct Hty as [Hty|(sub & -> & Hty)]; [by left|].
        by right. }
  repeat apply conj.
  - apply Hchar.
  - unfold get_fields_with_type. apply fmap_sublist, sublist_filter.
  - intros path (f & Hin & _ & Hty)%Hchar. apply Hchar. exists f.
    split; [done|]. split; [discriminate | done].
  - intros path (f & Hin & Hroot & Hty)%Hchar. apply Hchar. exists f.
    split; [done|]. split; [done|].
    destruct Hty as [Hty|(sub & -> & Hty)].
    + left. by apply isinstance_numeric_categorical.
    + right. exists sub. split; [done|]. by apply isinstance_numeric_categorical.
Qed.

Lemma field_choices_witness :
  "detections.scores" ∈ get_fields_with_type sample_schema CATEGORICAL_TYPES
                          (Some "detections").
Proof.
  apply (proj2 (proj2 (proj2 (field_choices sample_schema NUMERIC_TYPES
                                (Some "detections"))))).
  vm_compute. apply list_elem_of_here.
Defined.

Example field_choices_sample :
  get_fields_with_type sample_schema NUMERIC_TYPES None
  = ["confidence"; "detections.scores"]
  /\ get_fields_with_type sample_schema CATEGORICAL_TYPES (Some "detections")
     = ["detections.scores"; "detections.labels"].
Proof. split; reflexivity. Qed.

Lemma get_root_raised (schema : list (string * Field)) (path : string) (e : exn) :
  foldl (fun acc entry =>
           root <~ acc ;;
           let '(_path, field) := entry in
           if starts_with_dotted _path path
           then fo <~ field_fo field ;; Ok (Some _path)
           else Ok root) (Raise e) schema
  = Raise e.
Proof. induction schema as [|[p f] schema IH]; [done|]. simpl. apply IH. Qed.

Lemma get_root_from (schema : list (string * Field)) (path : string)
    (root : option string) :
  foldl (fun acc entry =>
           root <~ acc ;;
           let '(_path, field) := entry in
           if starts_with_dotted _path path
           then fo <~ field_fo field ;; Ok (Some _path)
           else Ok root) (Ok root) schema
  = if existsb (fun entry => starts_with_dotted entry.1 path) schema
    then Raise AttributeError
    else Ok root.
Proof.
  induction schema as [|[p f] schema IH]; [done|]. simpl.
  destruct (starts_with_dotted p path); simpl.
  - apply get_root_raised.
  - apply IH.
Qed.

(** X24. [get_root] never finds a root: it returns [None] when no schema
    path followed by a dot starts the given path, and otherwise raises on
    the first such entry, at [field.fo]. *)
Theorem get_root_never_finds_a_root (schema : list (string * Field)) (path : string) :
  get_root schema path
  = (if existsb (fun entry => starts_with_dotted entry.1 path) schema
     then Raise AttributeError
     else Ok None)
  /\ forall r, get_root schema path <> Ok (Some r).
Proof.
  assert (get_root schema path
          = if existsb (fun entry => starts_with_dotted entry.1 path) schema
            then Raise AttributeError else Ok None) as H.
  { apply get_root_from. }
  split; [done|]. intros r. rewrite H. by destruct (existsb _ _).
Qed.

Lemma get_root_never_finds_a_root_witness :
  get_root sample_schema "detections.scores" <> Ok (Some "detections").
Proof.
  apply (proj2 (get_root_never_finds_a_root sample_schema "detections.scores")).
Defined.

Example get_root_sample :
  get_root sample_schema "detections.scores" = Raise AttributeError
  /\ get_root sample_schema "confidence" = Ok None.
Proof. split; reflexivity. Qed.

(** ** Counts by value *)

Lemma int64_wrap_in_range (z : Z) : in_int64 (int64_wrap z) = true.
Proof.
  unfold in_int64, int64_wrap.
  pose proof (Z.mod_pos_bound (z + 2 ^ 63) (2 ^ 64) ltac:(lia)) as H.
  apply andb_true_iff. split; [apply Z.leb_le | apply Z.ltb_lt]; lia.
Qed.

Lemma int64_wrap_small (z : Z) : in_int64 z = true -> int64_wrap z = z.
Proof.
  unfold in_int64, int64_wrap. intros [H1 H2]%andb_true_iff.
  apply Z.leb_le in H1. apply Z.ltb_lt in H2.
  rewrite Z.mod_small by lia. lia.
Qed.

(** X25. A categorical histogram and a pie lay the host's counts out side
    by side, in the host's order: the i-th ["x"] (or label) is the i-th
    value and the i-th ["y"] its count.  For counts that fit int64, the i-th
    pie value is that count, as a float64, times 100 over the sum of the
    counts; the sum is taken in int64, so it is the plain sum when that fits
    and wraps around otherwise. *)
Theorem counts_payloads (self : DashboardState.t) (item : DashboardPlotItem.t)
    (counts : list (pyval * Z)) :
  truthy (DashboardPlotItem.field item) = true ->
  count_values (view (DashboardState.ctx self)) (DashboardPlotItem.field item)
  = Ok counts ->
  (exists d xs ys,
     DashboardState.load_categorical_histogram_data self item = Ok (VDict d)
     /\ d !! "x" = Some (VList xs)
     /\ d !! "y" = Some (VList ys)
     /\ d !! "type" = Some (VStr "bar")
     /\ length xs = length counts /\ length ys = length counts
     /\ forall i v n, counts !! i = Some (v, n) ->
                      xs !! i = Some v /\ ys !! i = Some (VInt n)) /\
  (forall cfg,
     DashboardPlotItem.config item = VDict cfg ->
     forallb in_int64 counts.*2 = true ->
     exists d labels vals,
       DashboardState.load_pie_data self item = Ok (VDict d)
       /\ d !! "labels" = Some (VList labels)
       /\ d !! "values" = Some (VList vals)
       /\ d !! "type" = Some (VStr "pie")
       /\ d !! "name" = Some (dict_get cfg "title" (VStr "Pie Chart"))
       /\ length labels = length counts /\ length vals = length counts
       /\ in_int64 (np_sum counts.*2) = true
       /\ (in_int64 (foldr Z.add 0 counts.*2) = true ->
           np_sum counts.*2 = foldr Z.add 0 counts.*2)
       /\ forall i v n, counts !! i = Some (v, n) ->
            labels !! i = Some v
            /\ vals !! i
               = Some (VFloat (PrimFloat.mul (float_of_int64 n)
                                 (PrimFloat.div 100%float
                                    (float_of_int64 (np_sum counts.*2)))))).
Proof.
  intros Hf Hc. split.
  - eexists. exists (counts.*1), (VInt <$> counts.*2).
    split.
    { unfold DashboardState.load_categorical_histogram_data. rewrite Hf, Hc. done. }
    repeat split; try by simplify_map_eq.
    + by rewrite length_fmap.
    + by rewrite !length_fmap.
    + by rewrite list_lookup_fmap, H.
    + by rewrite !list_lookup_fmap, H.
  - intros cfg Hcfg Hrange. eexists. exists (counts.*1). eexists.
    split.
    { unfold DashboardState.load_pie_data. rewrite Hf, Hc, Hcfg. simpl.
      rewrite Hrange. done. }
    repeat split; try by simplify_map_eq.
    + by rewrite length_fmap.
    + by rewrite !length_fmap.
    + apply int64_wrap_in_range.
    + apply int64_wrap_small.
    + by rewrite list_lookup_fmap, H.
    + by rewrite !list_lookup_fmap, H.
Qed.

Lemma counts_payloads_witness :
  let self := DashboardState.mk (sample_ctx ∅ NoUserAttr fresh_panel) ∅ ∅ in
  let counts := [(VStr "cat", 3); (VStr "dog", 1)] in
  exists d labels vals,
    DashboardState.load_pie_data self pie_widget = Ok (VDict d)
    /\ d !! "labels" = Some (VList labels)
    /\ d !! "values" = Some (VList vals)
    /\ d !! "type" = Some (VStr "pie")
    /\ d !! "name" = Some (dict_get ∅ "title" (VStr "Pie Chart"))
    /\ length labels = length counts /\ length vals = length counts
    /\ in_int64 (np_sum counts.*2) = true
    /\ (in_int64 (foldr Z.add 0 counts.*2) = true ->
        np_sum counts.*2 = foldr Z.add 0 counts.*2)
    /\ forall i v n, counts !! i = Some (v, n) ->
         labels !! i = Some v
         /\ vals !! i
            = Some (VFloat (PrimFloat.mul (float_of_int64 n)
                              (PrimFloat.div 100%float
                                 (float_of_int64 (np_sum counts.*2))))).
Proof.
  intros self counts.
  exact (proj2 (counts_payloads self pie_widget counts eq_refl eq_refl)
           ∅ eq_refl eq_refl).
Defined.

(** The conversion at the ends of int64, and a sum that wraps: two counts
    of 2^62 sum to -2^63 in int64, so each slice comes out as -50. *)
Example float_of_int64_ends :
  float_of_int64 (- 2 ^ 63) = (-9223372036854775808)%float
  /\ float_of_int64 (2 ^ 63 - 1) = 9223372036854775808%float
  /\ float_of_int64 (-3) = (-3)%float.
Proof. vm_compute. repeat split; reflexivity. Qed.

Example pie_sum_wraps :
  DashboardState.load_pie_data (DashboardState.mk overflowing_ctx ∅ ∅) pie_widget
  = Ok (VDict (<["values" := VList [VFloat (-50); VFloat (-50)]]>
              (<["labels" := VList [VStr "cat"; VStr "dog"]]>
              (<["type" := VStr "pie"]>
              (<["name" := VStr "Pie Chart"]> ∅))))).
Proof. vm_compute. reflexivity. Qed.
